(** * Hangman: a shallow embedding of the game engine

    The development follows the Python sources of the repository:

    - [pystr]     : the [str] primitives the engine calls (ASCII range);
    - [ascii_art] : [game/ascii_art.py], the stage table and its length;
    - [wordlist]  : [game/wordlist.py], loading and drawing words;
    - [engine]    : [game/engine.py], the game state, the two guess
                    transitions, scoring, statistics and the game log.

    Module-level globals of the Python code become fields of records that
    are passed explicitly; file contents, the clock, the random generator
    and the console are explicit arguments or fields of a [World]. *)

From Stdlib Require Import ZArith Ascii.
From Corelib Require Import PrimFloat SpecFloat FloatOps.
From stdpp Require Import gmap strings list sorting pretty.

Local Open Scope Z_scope.

(* ===================================================================== *)
(** * Python string primitives *)
(* ===================================================================== *)

(** A Python [str] is modelled as a [string] of 8-bit characters and a
    one-character [str] as an [ascii].  The model covers ASCII text: on
    codes above 127 [lower] is the identity and [isalpha], [isspace] are
    false, where Python would consult the Unicode tables.  Literals of the
    source that are not ASCII (the dash and the arrow of the log) appear as
    their UTF-8 bytes, which is what the log file receives. *)
Module pystr.

Definition code (c : ascii) : N := N_of_ascii c.

Definition is_upper (c : ascii) : bool :=
  ((65 <=? code c) && (code c <=? 90))%N.

Definition is_lower (c : ascii) : bool :=
  ((97 <=? code c) && (code c <=? 122))%N.

(** [c.isalpha()] for a single character. *)
Definition isalpha (c : ascii) : bool := is_upper c || is_lower c.

(** [c.lower()] and [c.upper()] for a single character. *)
Definition lower_char (c : ascii) : ascii :=
  if is_upper c then ascii_of_N (code c + 32) else c.

Definition upper_char (c : ascii) : ascii :=
  if is_lower c then ascii_of_N (code c - 32) else c.

(** The characters [str.strip()] removes: tab, line feed, vertical tab,
    form feed, carriage return, the four separators 28..31 and space. *)
Definition isspace (c : ascii) : bool :=
  (((9 <=? code c) && (code c <=? 13))
   || ((28 <=? code c) && (code c <=? 31))
   || (code c =? 32))%N.

Fixpoint map_chars (f : ascii → ascii) (s : string) : string :=
  match s with
  | EmptyString => EmptyString
  | String c r => String (f c) (map_chars f r)
  end.

(** [s.lower()] *)
Definition lower (s : string) : string := map_chars lower_char s.

(** [s.replace(' ', '')] *)
Fixpoint remove_spaces (s : string) : string :=
  match s with
  | EmptyString => EmptyString
  | String c r =>
      if Ascii.eqb c " " then remove_spaces r else String c (remove_spaces r)
  end.

Fixpoint lstrip (s : string) : string :=
  match s with
  | EmptyString => EmptyString
  | String c r => if isspace c then lstrip r else s
  end.

(** [rstrip] keeps a character when it is not a space or when something
    survives to its right. *)
Fixpoint rstrip (s : string) : string :=
  match s with
  | EmptyString => EmptyString
  | String c r =>
      match rstrip r with
      | EmptyString => if isspace c then EmptyString else String c EmptyString
      | r' => String c r'
      end
  end.

(** [s.strip()] *)
Definition strip (s : string) : string := rstrip (lstrip s).

(** [c in s] for a one-character [c]. *)
Fixpoint contains (c : ascii) (s : string) : bool :=
  match s with
  | EmptyString => false
  | String d r => Ascii.eqb c d || contains c r
  end.

(** [list(s)], the characters of [s] in order. *)
Definition chars (s : string) : list ascii := String.list_ascii_of_string s.

(** A one-character string. *)
Definition of_char (c : ascii) : string := String c EmptyString.

(** [sep.join(l)] *)
Definition join (sep : string) (l : list string) : string :=
  String.concat sep l.

(** [s.title()]: a cased character is upper-cased when the character
    before it is not cased, lower-cased otherwise. *)
Fixpoint title_from (prev_cased : bool) (s : string) : string :=
  match s with
  | EmptyString => EmptyString
  | String c r =>
      if isalpha c
      then String (if prev_cased then lower_char c else upper_char c)
                  (title_from true r)
      else String c (title_from false r)
  end.

Definition title (s : string) : string := title_from false s.

(** [str(n)] for an [int]. *)
Definition of_int (n : Z) : string := pretty n.

(** [sorted(letters)] for one-character strings: by code point. *)
Definition char_le (a b : ascii) : Prop := (code a ≤ code b)%N.

Global Instance char_le_dec : RelDecision char_le.
Proof. intros a b. unfold char_le. apply _. Defined.

Definition sorted (l : list ascii) : list ascii := merge_sort char_le l.

End pystr.

(* ===================================================================== *)
(** * game/ascii_art.py *)
(* ===================================================================== *)

Module ascii_art.

Definition HANGMAN_STAGES : list string :=
  [ "
    +---+
    |   |
        |
        |
        |
        |
    =========
    ";
      "
    +---+
    |   |
    O   |
        |
        |
        |
    =========
    ";
      "
    +---+
    |   |
    O   |
    |   |
        |
        |
    =========
    ";
      "
    +---+
    |   |
    O   |
   /|   |
        |
        |
    =========
    ";
      "
    +---+
    |   |
    O   |
   /|\  |
        |
        |
    =========
    ";
      "
    +---+
    |   |
    O   |
   /|\  |
   /    |
        |
    =========
    ";
      "
    +---+
    |   |
    O   |
   /|\  |
   / \  |
        |
    =========
    " ].

Definition get_max_wrong_guesses : Z := Z.of_nat (length HANGMAN_STAGES) - 1.

Definition is_game_over (wrong_guesses : Z) : bool :=
  get_max_wrong_guesses <=? wrong_guesses.

End ascii_art.


(* ===================================================================== *)
(** * Python exceptions and results *)
(* ===================================================================== *)

(** The exceptions the modelled code can raise, with the message where the
    code builds one. *)
Inductive exn :=
| ValueError (msg : string)
| TypeError
| KeyError (key : string)
| ZeroDivisionError
| OSError (msg : string).

(** The outcome of a call: a value, or a raised exception. *)
Inductive result (A : Type) :=
| Ok (a : A)
| Raise (e : exn).

Arguments Ok {A} a.
Arguments Raise {A} e.

(* ===================================================================== *)
(** * game/wordlist.py *)
(* ===================================================================== *)

Module wordlist.

(** The words directory as [load_words] finds it: the lines of
    [words.txt] when that file exists, and, when the [categories]
    directory exists, the lines of each file in it by file name. *)
Record WordsDir := {
  words_txt : option (list string);
  categories_dir : option (string → option (list string))
}.

(** The module globals [_all_words] and [_category_words]; the dict keeps
    its insertion order, which [determine_category] iterates. *)
Record Words := {
  _all_words : list string;
  _category_words : list (string * list string)
}.

Definition _categories : list (string * string) :=
  [ ("animals", "animals.txt");
    ("countries", "countries.txt");
    ("programming", "programming.txt");
    ("science", "science.txt") ].

(** [d[k]] lookup and [d[k] = v] on an insertion-ordered dict. *)
Fixpoint dict_get {V} (k : string) (d : list (string * V)) : option V :=
  match d with
  | [] => None
  | (k', v) :: r => if decide (k = k') then Some v else dict_get k r
  end.

Fixpoint dict_set {V} (k : string) (v : V) (d : list (string * V))
  : list (string * V) :=
  match d with
  | [] => [(k, v)]
  | (k', v') :: r =>
      if decide (k = k') then (k, v) :: r else (k', v') :: dict_set k v r
  end.

(** [[word.strip().lower() for word in f.readlines() if word.strip()]] *)
Definition read_words (lines : list string) : list string :=
  (λ word, pystr.lower (pystr.strip word))
    <$> filter (λ word, pystr.strip word ≠ "") lines.

(** The globals before [load_words] has run. *)
Definition no_words : Words := {| _all_words := []; _category_words := [] |}.

Definition load_words (words_dir : WordsDir) (g : Words) : Words :=
  {| _all_words :=
       match words_txt words_dir with
       | Some lines => read_words lines
       | None => _all_words g
       end;
     _category_words :=
       match categories_dir words_dir with
       | Some files =>
           foldl (λ acc '(category, filename),
                    match files filename with
                    | Some lines => dict_set category (read_words lines) acc
                    | None => acc
                    end)
                 (_category_words g) _categories
       | None => _category_words g
       end |}.

Definition get_available_categories (g : Words) : list string :=
  fst <$> _category_words g.

(** The first category, in dict order, whose list holds the word. *)
Fixpoint determine_category_in (word : string) (d : list (string * list string))
  : string :=
  match d with
  | [] => "mixed"
  | (category, words) :: r =>
      if decide (word ∈ words) then category else determine_category_in word r
  end.

Definition determine_category (g : Words) (word : string) : string :=
  determine_category_in word (_category_words g).

(** [random.choice(seq)] on a non-empty sequence [x :: l]; the number [r]
    stands for the draw of the generator. *)
Definition choice {A} (r : nat) (x : A) (l : list A) : A :=
  nth (r `mod` S (length l))%nat (x :: l) x.

Definition get_random_word (g : Words) (category : option string) (r : nat)
  : result (string * string) :=
  match category with
  | None =>
      match _all_words g with
      | [] => Raise (ValueError "No words available")
      | w :: ws =>
          let word := choice r w ws in
          Ok (word, determine_category g word)
      end
  | Some category =>
      let category := pystr.lower category in
      match dict_get category (_category_words g) with
      | None =>
          Raise (ValueError ("Category '" +:+ category +:+ "' not found"))
      | Some [] =>
          Raise (ValueError
                   ("No words available in category '" +:+ category +:+ "'"))
      | Some (w :: ws) => Ok (choice r w ws, category)
      end
  end.

End wordlist.


(* ===================================================================== *)
(** * game/engine.py: the game state machine *)
(* ===================================================================== *)

Module engine.

(** The module globals of one game.  [project_root], [stats_file] and
    [log_dir] are paths; what lies behind them is the [World] below. *)
Record GameState := {
  current_word : string;
  current_category : string;
  guessed_letters : gset ascii;
  correct_letters : gset ascii;
  wrong_letters : gset ascii;
  wrong_guesses : Z;
  max_wrong_guesses : Z;
  game_won : bool;
  game_lost : bool;
  guess_count : Z;
  progress_trace : list string;
  current_game_number : Z
}.

(** Assignments to one global. *)
Definition set_word (w c : string) (s : GameState) : GameState :=
  {| current_word := w; current_category := c;
     guessed_letters := guessed_letters s; correct_letters := correct_letters s;
     wrong_letters := wrong_letters s; wrong_guesses := wrong_guesses s;
     max_wrong_guesses := max_wrong_guesses s; game_won := game_won s;
     game_lost := game_lost s; guess_count := guess_count s;
     progress_trace := progress_trace s;
     current_game_number := current_game_number s |}.

Definition set_guessed_letters (v : gset ascii) (s : GameState) : GameState :=
  {| current_word := current_word s; current_category := current_category s;
     guessed_letters := v; correct_letters := correct_letters s;
     wrong_letters := wrong_letters s; wrong_guesses := wrong_guesses s;
     max_wrong_guesses := max_wrong_guesses s; game_won := game_won s;
     game_lost := game_lost s; guess_count := guess_count s;
     progress_trace := progress_trace s;
     current_game_number := current_game_number s |}.

Definition set_correct_letters (v : gset ascii) (s : GameState) : GameState :=
  {| current_word := current_word s; current_category := current_category s;
     guessed_letters := guessed_letters s; correct_letters := v;
     wrong_letters := wrong_letters s; wrong_guesses := wrong_guesses s;
     max_wrong_guesses := max_wrong_guesses s; game_won := game_won s;
     game_lost := game_lost s; guess_count := guess_count s;
     progress_trace := progress_trace s;
     current_game_number := current_game_number s |}.

Definition set_wrong_letters (v : gset ascii) (s : GameState) : GameState :=
  {| current_word := current_word s; current_category := current_category s;
     guessed_letters := guessed_letters s; correct_letters := correct_letters s;
     wrong_letters := v; wrong_guesses := wrong_guesses s;
     max_wrong_guesses := max_wrong_guesses s; game_won := game_won s;
     game_lost := game_lost s; guess_count := guess_count s;
     progress_trace := progress_trace s;
     current_game_number := current_game_number s |}.

Definition set_wrong_guesses (v : Z) (s : GameState) : GameState :=
  {| current_word := current_word s; current_category := current_category s;
     guessed_letters := guessed_letters s; correct_letters := correct_letters s;
     wrong_letters := wrong_letters s; wrong_guesses := v;
     max_wrong_guesses := max_wrong_guesses s; game_won := game_won s;
     game_lost := game_lost s; guess_count := guess_count s;
     progress_trace := progress_trace s;
     current_game_number := current_game_number s |}.

Definition set_max_wrong_guesses (v : Z) (s : GameState) : GameState :=
  {| current_word := current_word s; current_category := current_category s;
     guessed_letters := guessed_letters s; correct_letters := correct_letters s;
     wrong_letters := wrong_letters s; wrong_guesses := wrong_guesses s;
     max_wrong_guesses := v; game_won := game_won s;
     game_lost := game_lost s; guess_count := guess_count s;
     progress_trace := progress_trace s;
     current_game_number := current_game_number s |}.

Definition set_game_won (v : bool) (s : GameState) : GameState :=
  {| current_word := current_word s; current_category := current_category s;
     guessed_letters := guessed_letters s; correct_letters := correct_letters s;
     wrong_letters := wrong_letters s; wrong_guesses := wrong_guesses s;
     max_wrong_guesses := max_wrong_guesses s; game_won := v;
     game_lost := game_lost s; guess_count := guess_count s;
     progress_trace := progress_trace s;
     current_game_number := current_game_number s |}.

Definition set_game_lost (v : bool) (s : GameState) : GameState :=
  {| current_word := current_word s; current_category := current_category s;
     guessed_letters := guessed_letters s; correct_letters := correct_letters s;
     wrong_letters := wrong_letters s; wrong_guesses := wrong_guesses s;
     max_wrong_guesses := max_wrong_guesses s; game_won := game_won s;
     game_lost := v; guess_count := guess_count s;
     progress_trace := progress_trace s;
     current_game_number := current_game_number s |}.

Definition set_guess_count (v : Z) (s : GameState) : GameState :=
  {| current_word := current_word s; current_category := current_category s;
     guessed_letters := guessed_letters s; correct_letters := correct_letters s;
     wrong_letters := wrong_letters s; wrong_guesses := wrong_guesses s;
     max_wrong_guesses := max_wrong_guesses s; game_won := game_won s;
     game_lost := game_lost s; guess_count := v;
     progress_trace := progress_trace s;
     current_game_number := current_game_number s |}.

Definition set_progress_trace (v : list string) (s : GameState) : GameState :=
  {| current_word := current_word s; current_category := current_category s;
     guessed_letters := guessed_letters s; correct_letters := correct_letters s;
     wrong_letters := wrong_letters s; wrong_guesses := wrong_guesses s;
     max_wrong_guesses := max_wrong_guesses s; game_won := game_won s;
     game_lost := game_lost s; guess_count := guess_count s;
     progress_trace := v;
     current_game_number := current_game_number s |}.

Definition set_current_game_number (v : Z) (s : GameState) : GameState :=
  {| current_word := current_word s; current_category := current_category s;
     guessed_letters := guessed_letters s; correct_letters := correct_letters s;
     wrong_letters := wrong_letters s; wrong_guesses := wrong_guesses s;
     max_wrong_guesses := max_wrong_guesses s; game_won := game_won s;
     game_lost := game_lost s; guess_count := guess_count s;
     progress_trace := progress_trace s;
     current_game_number := v |}.

(** The globals as the module defines them at import. *)
Definition globals : GameState :=
  {| current_word := ""; current_category := "";
     guessed_letters := ∅; correct_letters := ∅; wrong_letters := ∅;
     wrong_guesses := 0; max_wrong_guesses := 6;
     game_won := false; game_lost := false; guess_count := 0;
     progress_trace := []; current_game_number := 1 |}.

(** [initialize_game]: the stage table fixes the number of wrong guesses
    and the word files are read. *)
Definition initialize_game (words_dir : wordlist.WordsDir)
  : GameState * wordlist.Words :=
  (set_max_wrong_guesses ascii_art.get_max_wrong_guesses globals,
   wordlist.load_words words_dir wordlist.no_words).

Definition reset_game_state (s : GameState) : GameState :=
  {| current_word := ""; current_category := "";
     guessed_letters := ∅; correct_letters := ∅; wrong_letters := ∅;
     wrong_guesses := 0; max_wrong_guesses := max_wrong_guesses s;
     game_won := false; game_lost := false; guess_count := 0;
     progress_trace := []; current_game_number := current_game_number s |}.

(** [calculate_score] reads the global [game_lost]. *)
Definition calculate_score (s : GameState) (word_length wrong_guess_count : Z)
  : Z :=
  if game_lost s then 0
  else
    let base_score := word_length * 10 in
    let penalty := wrong_guess_count * 5 in
    Z.max (base_score - penalty) 10.

Definition get_word_progress (s : GameState) : string :=
  pystr.join " "
    ((λ letter, if decide (letter ∈ correct_letters s)
                then pystr.of_char letter else "_")
       <$> pystr.chars (current_word s)).

(** [set(current_word) <= correct_letters] *)
Definition is_word_complete (s : GameState) : bool :=
  bool_decide (list_to_set (pystr.chars (current_word s)) ⊆ correct_letters s).

Definition process_letter_guess (letter : ascii) (s : GameState)
  : string * GameState :=
  let letter := pystr.lower_char letter in
  if decide (letter ∈ guessed_letters s) then ("repeated", s)
  else
    let s := set_guessed_letters ({[letter]} ∪ guessed_letters s) s in
    let s := set_guess_count (guess_count s + 1) s in
    if pystr.contains letter (current_word s) then
      let s := set_correct_letters ({[letter]} ∪ correct_letters s) s in
      let progress := get_word_progress s in
      let s := set_progress_trace (progress_trace s ++ [progress]) s in
      let s := if is_word_complete s then set_game_won true s else s in
      ("correct", s)
    else
      let s := set_wrong_letters ({[letter]} ∪ wrong_letters s) s in
      let s := set_wrong_guesses (wrong_guesses s + 1) s in
      let progress := get_word_progress s in
      let s := set_progress_trace
                 (progress_trace s
                  ++ [progress +:+ " (" +:+ pystr.of_char letter
                      +:+ " wrong — no progress change)"]) s in
      let s := if max_wrong_guesses s <=? wrong_guesses s
               then set_game_lost true s else s in
      ("wrong", s).

(** The loop of the correct branch of [process_word_guess]: every
    alphabetic character of the word joins both sets. *)
Definition mark_letter (s : GameState) (letter : ascii) : GameState :=
  if pystr.isalpha letter then
    let s := set_correct_letters ({[letter]} ∪ correct_letters s) s in
    set_guessed_letters ({[letter]} ∪ guessed_letters s) s
  else s.

Definition process_word_guess (guess : string) (s : GameState)
  : string * GameState :=
  let guess := pystr.remove_spaces (pystr.lower guess) in
  let target := pystr.remove_spaces (current_word s) in
  let s := set_guess_count (guess_count s + 1) s in
  if decide (guess = target) then
    let s := foldl mark_letter s (pystr.chars (current_word s)) in
    let s := set_game_won true s in
    let progress := get_word_progress s in
    let s := set_progress_trace (progress_trace s ++ [progress]) s in
    ("correct", s)
  else
    let s := set_wrong_guesses (wrong_guesses s + 1) s in
    let progress := get_word_progress s in
    let s := set_progress_trace
               (progress_trace s
                ++ [progress +:+ " (word '" +:+ guess
                    +:+ "' wrong — no progress change)"]) s in
    let s := if max_wrong_guesses s <=? wrong_guesses s
             then set_game_lost true s else s in
    ("wrong", s).

(** [start_new_game].  [r] is the draw of the random generator and
    [next_game] the outcome of [get_next_game_number] followed by
    [start_game_log] on the log directory: the next number, or the
    exception they raised.  Any exception is caught and makes the call
    return [False], leaving the globals as they were when it was raised. *)
Definition start_new_game (g : wordlist.Words) (category : option string)
    (r : nat) (next_game : result Z) (s : GameState) : bool * GameState :=
  let s := reset_game_state s in
  match wordlist.get_random_word g category r with
  | Raise _ => (false, s)
  | Ok (word, actual_category) =>
      let s := set_word word actual_category s in
      let initial_progress := get_word_progress s in
      let s := set_progress_trace (progress_trace s ++ [initial_progress]) s in
      match next_game with
      | Raise _ => (false, s)
      | Ok n => (true, set_current_game_number n s)
      end
  end.

(** What the player enters at the prompt of [play_game]: a letter, the
    whole word (after typing [guess]), or [quit]. *)
Inductive user_input :=
| Letter (c : ascii)
| Word (guess : string)
| Quit.

(** How [play_game] stands once the given inputs are consumed: the loop
    ran to its end and [end_game] is called, the player quit, or the
    prompt waits for more. *)
Inductive play_status := Ended | QuitGame | Waiting.

(** [play_game] on a list of entries: the loop runs while the game is
    neither won nor lost. *)
Fixpoint play_game (inputs : list user_input) (s : GameState)
  : play_status * GameState :=
  if negb (game_won s) && negb (game_lost s) then
    match inputs with
    | [] => (Waiting, s)
    | Quit :: _ => (QuitGame, s)
    | Word word_guess :: rest =>
        play_game rest (process_word_guess word_guess s).2
    | Letter user_input :: rest =>
        play_game rest (process_letter_guess user_input s).2
    end
  else (Ended, s).

(** The score [end_game] computes. *)
Definition end_game_score (s : GameState) : Z :=
  calculate_score s (Z.of_nat (String.length (current_word s)))
    (wrong_guesses s).

(** ** Executions

    A game starts when [start_new_game] returns [True]; the globals it
    starts from carry the [max_wrong_guesses] that [initialize_game] set
    (everything else is reset).  A step is one call of a guess function. *)
Inductive started (words_dir : wordlist.WordsDir) : GameState → Prop :=
| started_intro prev category r n s :
    max_wrong_guesses prev = ascii_art.get_max_wrong_guesses →
    start_new_game (initialize_game words_dir).2 category r (Ok n) prev
      = (true, s) →
    started words_dir s.

Inductive step : GameState → GameState → Prop :=
| step_letter letter s : step s (process_letter_guess letter s).2
| step_word guess s : step s (process_word_guess guess s).2.

(** States reached from a started game by any calls of the two guess
    functions. *)
Inductive reachable (words_dir : wordlist.WordsDir) : GameState → Prop :=
| reach_start s : started words_dir s → reachable words_dir s
| reach_step s s' :
    reachable words_dir s → step s s' → reachable words_dir s'.

(** The loop condition of [play_game]. *)
Definition in_progress (s : GameState) : Prop :=
  game_won s = false ∧ game_lost s = false.

(** States reached under the loop of [play_game], which calls a guess
    function only while the game is in progress. *)
Inductive played (words_dir : wordlist.WordsDir) : GameState → Prop :=
| played_start s : started words_dir s → played words_dir s
| played_step s s' :
    played words_dir s → in_progress s → step s s' → played words_dir s'.

(** The state after a list of letter guesses, one call each. *)
Definition guess_letters (letters : list ascii) (s : GameState) : GameState :=
  foldl (λ s letter, (process_letter_guess letter s).2) s letters.

(** Every alphabetic character of the target word is in
    [correct_letters]. *)
Definition alphabetic_covered (s : GameState) : Prop :=
  ∀ c, c ∈ pystr.chars (current_word s) → pystr.isalpha c = true →
       c ∈ correct_letters s.

(** The comparison key of a whole-word guess: case-folded, spaces
    removed. *)
Definition fold_word (w : string) : string :=
  pystr.remove_spaces (pystr.lower w).

(** A word as [load_words] stores it: in lower case and not empty. *)
Definition stored_word (w : string) : Prop :=
  pystr.lower w = w ∧ w ≠ "".

(** Every word held by the word lists is such a word. *)
Definition all_stored (g : wordlist.Words) : Prop :=
  (∀ w, w ∈ wordlist._all_words g → stored_word w)
  ∧ (∀ k ws, wordlist.dict_get k (wordlist._category_words g) = Some ws →
             ∀ w, w ∈ ws → stored_word w).

(** What every reachable state satisfies: the letter sets split the
    guessed letters by membership in the word, the limit is six, the lost
    flag records that the limit is reached, the word is in lower case. *)
Record game_inv (s : GameState) : Prop := {
  inv_union : correct_letters s ∪ wrong_letters s = guessed_letters s;
  inv_correct :
    ∀ c, c ∈ correct_letters s → c ∈ pystr.chars (current_word s);
  inv_wrong : ∀ c, c ∈ wrong_letters s → c ∉ pystr.chars (current_word s);
  inv_max : max_wrong_guesses s = 6;
  inv_lost : game_lost s = true ↔ 6 ≤ wrong_guesses s;
  inv_word : pystr.lower (current_word s) = current_word s
}.

(* ===================================================================== *)
(** * game/engine.py: statistics *)
(* ===================================================================== *)

(** The values held by the statistics dict: what [json.load] yields for a
    field and what [update_statistics] stores.  A JSON array or object in
    a field is kept as its text. *)
Inductive pyval :=
| PNone
| PBool (b : bool)
| PInt (n : Z)
| PFloat (f : float)
| PStr (s : string)
| PJson (text : string).

(** What lies at [stats_file].  The file holds a JSON document; the model
    keeps the dict it parses to, [json.dump] followed by [json.load] being
    the identity on these values.  A document whose top level is not an
    object is outside the model. *)
Inductive stats_file_state :=
| FileAbsent
| FileUnreadable (e : string)
| FileMalformed (e : string)
| FileObject (d : gmap string pyval).

(** The environment of the statistics and log functions.  A write error
    carries the text of the [IOError] and what the failed attempt leaves
    at the path. *)
Record World := {
  stats_file : stats_file_state;
  stats_write_error : option (string * stats_file_state);
  log_files : gmap Z string;
  log_write_error : option string;
  stdout : list string
}.

(** Computations that read and write the world and may raise. *)
Definition M (A : Type) : Type := World → result A * World.

#[global] Instance M_ret : MRet M := λ A a w, (Ok a, w).

#[global] Instance M_bind : MBind M := λ A B k m w,
  match m w with
  | (Ok a, w') => k a w'
  | (Raise e, w') => (Raise e, w')
  end.

(** A pure outcome as a computation. *)
Definition lift {A} (r : result A) : M A := λ w, (r, w).

(** Reading a component of the world. *)
Definition read {A} (field : World → A) : M A := λ w, (Ok (field w), w).

Definition print (line : string) : M unit := λ w,
  (Ok (),
   {| stats_file := stats_file w; stats_write_error := stats_write_error w;
      log_files := log_files w; log_write_error := log_write_error w;
      stdout := stdout w ++ [line] |}).

Definition write_stats_file (f : stats_file_state) : M unit := λ w,
  (Ok (),
   {| stats_file := f; stats_write_error := stats_write_error w;
      log_files := log_files w; log_write_error := log_write_error w;
      stdout := stdout w |}).

Definition write_log_file (game_number : Z) (text : string) : M unit := λ w,
  (Ok (),
   {| stats_file := stats_file w; stats_write_error := stats_write_error w;
      log_files := <[game_number := text]> (log_files w);
      log_write_error := log_write_error w; stdout := stdout w |}).

Definition default_stats_items : list (string * pyval) :=
  [ ("games_played", PInt 0);
    ("wins", PInt 0);
    ("losses", PInt 0);
    ("total_score", PInt 0);
    ("win_rate", PFloat 0);
    ("average_score", PFloat 0);
    ("last_played", PNone) ].

Definition default_stats : gmap string pyval := list_to_map default_stats_items.

(** The loop of [load_statistics] over [default_stats.items()]. *)
Definition backfill (loaded_stats : gmap string pyval) : gmap string pyval :=
  foldl (λ loaded '(key, default_value),
           match loaded !! key with
           | None => <[key := default_value]> loaded
           | Some _ => loaded
           end)
        loaded_stats default_stats_items.

Definition load_statistics : M (gmap string pyval) :=
  file ← read (stats_file);
  match file with
  | FileAbsent => mret default_stats
  | FileObject loaded_stats => mret (backfill loaded_stats)
  | FileUnreadable e | FileMalformed e =>
      print ("Warning: Could not load statistics (" +:+ e
             +:+ "). Starting fresh.");;
      mret default_stats
  end.

Definition save_statistics (stats : gmap string pyval) : M unit :=
  failure ← read (stats_write_error);
  match failure with
  | None => write_stats_file (FileObject stats)
  | Some (e, left_behind) =>
      write_stats_file left_behind;;
      print ("Warning: Could not save statistics (" +:+ e +:+ ")")
  end.

(** ** Python numbers

    Floats are IEEE binary64, as in CPython.  [float_of_int] rounds to
    nearest; the model is exact for integers below [2^53] in magnitude and
    does not represent the [OverflowError] CPython raises on integers
    beyond the range of a float. *)
Definition float_of_int (n : Z) : float :=
  SF2Prim (binary_normalize prec emax n 0 false).

Inductive pynum :=
| NInt (n : Z)
| NFloat (f : float).

(** [bool] is a subclass of [int]. *)
Definition as_num (v : pyval) : option pynum :=
  match v with
  | PBool b => Some (NInt (Z.b2z b))
  | PInt n => Some (NInt n)
  | PFloat f => Some (NFloat f)
  | _ => None
  end.

Definition num_to_float (x : pynum) : float :=
  match x with
  | NInt n => float_of_int n
  | NFloat f => f
  end.

Definition num_is_zero (x : pynum) : bool :=
  match x with
  | NInt n => n =? 0
  | NFloat f => PrimFloat.eqb f 0
  end.

(** [v + n] for an [int] [n]. *)
Definition py_add_int (v : pyval) (n : Z) : result pyval :=
  match as_num v with
  | Some (NInt m) => Ok (PInt (m + n))
  | Some (NFloat f) => Ok (PFloat (PrimFloat.add f (float_of_int n)))
  | None => Raise TypeError
  end.

(** [a / b], true division. *)
Definition py_truediv (a b : pyval) : result float :=
  match as_num a, as_num b with
  | Some x, Some y =>
      if num_is_zero y then Raise ZeroDivisionError
      else Ok (PrimFloat.div (num_to_float x) (num_to_float y))
  | _, _ => Raise TypeError
  end.

(** [stats[key]] *)
Definition getitem (stats : gmap string pyval) (key : string) : result pyval :=
  match stats !! key with
  | Some v => Ok v
  | None => Raise (KeyError key)
  end.

(** [stats[key] += n] *)
Definition iadd (key : string) (n : Z) (stats : gmap string pyval)
  : result (gmap string pyval) :=
  match getitem stats key with
  | Raise e => Raise e
  | Ok v =>
      match py_add_int v n with
      | Raise e => Raise e
      | Ok v' => Ok (<[key := v']> stats)
      end
  end.

(** [update_statistics]; [now] is [datetime.now().isoformat()]. *)
Definition update_statistics (now : string) (won : bool) (score : Z)
  : M (gmap string pyval) :=
  stats ← load_statistics;
  stats ← lift (iadd "games_played" 1 stats);
  stats ← lift (if won then iadd "wins" 1 stats else iadd "losses" 1 stats);
  stats ← lift (iadd "total_score" score stats);
  wins ← lift (getitem stats "wins");
  games_played ← lift (getitem stats "games_played");
  ratio ← lift (py_truediv wins games_played);
  let stats :=
    <["win_rate" := PFloat (PrimFloat.mul ratio (float_of_int 100))]> stats in
  total_score ← lift (getitem stats "total_score");
  games_played ← lift (getitem stats "games_played");
  average ← lift (py_truediv total_score games_played);
  let stats := <["average_score" := PFloat average]> stats in
  let stats := <["last_played" := PStr now]> stats in
  save_statistics stats;;
  mret stats.

(** Recording the outcomes of several games, one call each; an entry is
    the clock reading, the won flag and the score. *)
Fixpoint record_outcomes (games : list (string * bool * Z)) : M unit :=
  match games with
  | [] => mret ()
  | (now, won, score) :: rest =>
      update_statistics now won score;;
      record_outcomes rest
  end.

(* ===================================================================== *)
(** * game/engine.py: the game log *)
(* ===================================================================== *)

#[global] Instance result_ret : MRet result := λ A a, Ok a.

#[global] Instance result_bind : MBind result := λ A B k r,
  match r with
  | Ok a => k a
  | Raise e => Raise e
  end.

(** The separator [save_game_log] joins the entries with.  The source
    writes an escaped backslash before the [n], so the separator is the
    two characters backslash and [n]; a Rocq string has no escapes and
    spells it the same way. *)
Definition log_separator : string := "\n".

(** The line feed character, for comparison. *)
Definition line_feed : ascii := ascii_of_N 10.

Section game_log.

(** The interpreter's formatting of floats and of nested values, and the
    order in which a [for] loop visits a set, are parameters. *)
Variable float_repr : float → string.
Variable float_fixed2 : float → string.
Variable json_repr : string → string.
Variable set_order : gset ascii → list ascii.

(** [str(v)], as an f-string field renders it. *)
Definition py_str (v : pyval) : string :=
  match v with
  | PNone => "None"
  | PBool b => if b then "True" else "False"
  | PInt n => pystr.of_int n
  | PFloat f => float_repr f
  | PStr s => s
  | PJson text => json_repr text
  end.

(** [format(v, '.2f')] *)
Definition format_2f (v : pyval) : result string :=
  match v with
  | PFloat f => Ok (float_fixed2 f)
  | PInt n => Ok (float_fixed2 (float_of_int n))
  | PBool b => Ok (float_fixed2 (float_of_int (Z.b2z b)))
  | PStr _ =>
      Raise (ValueError "Unknown format code 'f' for object of type 'str'")
  | PNone | PJson _ => Raise TypeError
  end.

(** The list [log_entries] that [save_game_log] builds. *)
Definition log_entries (timestamp : string) (s : GameState) (game_number : Z)
    (won : bool) (score : Z) (stats : gmap string pyval)
  : result (list string) :=
  let result := if won then "Win" else "Loss" in
  let log_entries :=
    [ "Game " +:+ pystr.of_int game_number +:+ " Log";
      "Category: " +:+ (if decide (current_category s = "") then "Mixed"
                        else pystr.title (current_category s));
      "Word: " +:+ current_word s;
      "Word Length: "
        +:+ pystr.of_int (Z.of_nat (String.length (current_word s)));
      "Date & Time: " +:+ timestamp;
      "";
      "Guesses (in order):" ] in
  let log_entries :=
    log_entries
    ++ imap (λ i letter,
               pystr.of_int (Z.of_nat i + 1) +:+ ". " +:+ pystr.of_char letter
               +:+ (if decide (letter ∈ correct_letters s)
                    then " → Correct (letter)" else " → Wrong (letter)"))
            (set_order (guessed_letters s)) in
  total_score ← getitem stats "total_score";
  games_played ← getitem stats "games_played";
  wins ← getitem stats "wins";
  losses ← getitem stats "losses";
  win_rate ← getitem stats "win_rate";
  win_rate ← format_2f win_rate;
  let log_entries :=
    log_entries
    ++ [ "";
         "Wrong Guesses List: "
           +:+ (if decide (wrong_letters s = ∅) then "None"
                else pystr.join ", "
                       (pystr.of_char
                          <$> pystr.sorted (elements (wrong_letters s))));
         "Wrong Guesses Count: " +:+ pystr.of_int (wrong_guesses s);
         "Remaining Attempts at End: "
           +:+ pystr.of_int (max_wrong_guesses s - wrong_guesses s);
         "Result: " +:+ result;
         "Points Earned: " +:+ pystr.of_int score;
         "Total Score (after this round): " +:+ py_str total_score;
         "Games Played: " +:+ py_str games_played;
         "Wins: " +:+ py_str wins;
         "Losses: " +:+ py_str losses;
         "Win Rate: " +:+ win_rate +:+ "%";
         "";
         "---------------------------------------";
         "Session Notes:";
         "- ASCII hangman reached state " +:+ pystr.of_int (wrong_guesses s)
           +:+ " after " +:+ pystr.of_int (wrong_guesses s)
           +:+ " wrong guess(es).";
         "- Progress trace:" ] in
  let log_entries :=
    log_entries
    ++ imap (λ i progress,
               let arrow := if decide (0 < i)%nat then " -> " else " " in
               arrow +:+ progress)
            (progress_trace s) in
  mret (log_entries ++ ["---------------------------------------"]).

(** [save_game_log]; [timestamp] is the formatted clock reading.  A
    failed write leaves the log files as they were and prints a warning. *)
Definition save_game_log (timestamp : string) (s : GameState)
    (game_number : Z) (won : bool) (score : Z) (stats : gmap string pyval)
  : M unit :=
  log_entries ← lift (log_entries timestamp s game_number won score stats);
  failure ← read log_write_error;
  match failure with
  | None => write_log_file game_number (pystr.join log_separator log_entries)
  | Some e => print ("Warning: Could not save game log (" +:+ e +:+ ")")
  end.

(** [end_game]: score, statistics, then the log (the screens shown in
    between only print). *)
Definition end_game (now timestamp : string) (s : GameState) : M unit :=
  let score := end_game_score s in
  stats ← update_statistics now (game_won s) score;
  save_game_log timestamp s (current_game_number s) (game_won s) score stats.

End game_log.

End engine.

Import engine.
(** ** Sample data

    A words directory whose [words.txt] holds three lines, and the game
    [start_new_game] starts from it when the generator draws [r]. *)
Definition sample_words : wordlist.WordsDir :=
  {| wordlist.words_txt := Some ["Cat
"; "dog
"; "Ice Cream
"];
     wordlist.categories_dir := None |}.

Definition sample_game (r : nat) : GameState :=
  (start_new_game (initialize_game sample_words).2 None r (Ok 1)
     (initialize_game sample_words).1).2.

(** The integer held under [key], when there is one. *)
Definition counter (stats : gmap string pyval) (key : string) : option Z :=
  match stats !! key with
  | Some (PInt n) => Some n
  | _ => None
  end.

(** The four running totals of a statistics record. *)
Definition counters (stats : gmap string pyval) : option (Z * Z * Z * Z) :=
  games_played ← counter stats "games_played";
  wins ← counter stats "wins";
  losses ← counter stats "losses";
  total_score ← counter stats "total_score";
  Some (games_played, wins, losses, total_score).

(** The running totals as the next [load_statistics] would find them. *)
Definition persisted_counters (w : World) : option (Z * Z * Z * Z) :=
  match (load_statistics w).1 with
  | Ok stats => counters stats
  | Raise _ => None
  end.

(** The won flag and score of each recorded game, without the clock. *)
Definition outcomes (games : list (string * bool * Z)) : list (bool * Z) :=
  (λ g, (g.1.2, g.2)) <$> games.

Definition count_won (won : bool) (l : list (bool * Z)) : Z :=
  Z.of_nat (length (filter (λ o, o.1 = won) l)).

Definition sum_scores (l : list (bool * Z)) : Z :=
  foldr (λ o acc, o.2 + acc) 0 l.

(** A world with the given statistics file and write failure, no log
    files and a silent console. *)
Definition world_with (file : stats_file_state)
    (write_error : option (string * stats_file_state)) : World :=
  {| stats_file := file; stats_write_error := write_error;
     log_files := ∅; log_write_error := None; stdout := [] |}.

(** A world whose log directory cannot be written. *)
Definition world_log_failure (e : string) : World :=
  {| stats_file := FileAbsent; stats_write_error := None;
     log_files := ∅; log_write_error := Some e; stdout := [] |}.

(** One choice of the interpreter's formatting, for the sample runs:
    a fixed rendering of floats and nested values. *)
Definition sample_float_text (f : float) : string := "0.00".

Definition sample_json_text (text : string) : string := text.

Definition sample_set_order (letters : gset ascii) : list ascii :=
  elements letters.

(** ** wordlist.py: counting *)

(** [get_word_count] *)
Definition get_word_count (g : wordlist.Words) (category : option string)
  : Z :=
  match category with
  | None => Z.of_nat (length (wordlist._all_words g))
  | Some category =>
      let category := pystr.lower category in
      match wordlist.dict_get category (wordlist._category_words g) with
      | Some words => Z.of_nat (length words)
      | None => 0
      end
  end.

(* ===================================================================== *)
(** * Further functions of the sources *)
(* ===================================================================== *)

(** ** ascii_art.py: get_hangman_stage *)

(** What [get_hangman_stage] does: it returns the stage, or raises the
    [ValueError] of its range check, or the [IndexError] of the list
    access. *)
Inductive stage_result :=
| Stage (art : string)
| StageValueError (msg : string)
| StageIndexError.

Definition get_hangman_stage (wrong_guesses : Z) : stage_result :=
  if negb ((0 <=? wrong_guesses) && (wrong_guesses <=? 6)) then
    StageValueError ("Wrong guesses must be between 0 and 6, got "
                     +:+ pystr.of_int wrong_guesses)
  else
    match ascii_art.HANGMAN_STAGES !! Z.to_nat wrong_guesses with
    | Some stage => Stage (pystr.strip stage)
    | None => StageIndexError
    end.

(** ** engine.py: get_next_game_number *)

(** [c.isdigit()] for an ASCII character and [s.isdigit()]: not empty and
    all digits. *)
Definition isdigit_char (c : ascii) : bool :=
  ((48 <=? pystr.code c) && (pystr.code c <=? 57))%N.

Definition isdigit (s : string) : bool :=
  match s with
  | EmptyString => false
  | _ => forallb isdigit_char (pystr.chars s)
  end.

(** [s.startswith(p)] *)
Definition startswith (p s : string) : bool := String.prefix p s.

(** [s[n:]] *)
Fixpoint slice_from (n : nat) (s : string) : string :=
  match n, s with
  | O, _ => s
  | S n', String _ r => slice_from n' r
  | S _, EmptyString => EmptyString
  end.

(** [s.replace('game', '')]: every occurrence, found from the left and
    without overlap, is removed. *)
Fixpoint remove_game (s : string) : string :=
  match s with
  | String "g" (String "a" (String "m" (String "e" r))) => remove_game r
  | String c r => String c (remove_game r)
  | EmptyString => EmptyString
  end.

(** [int(s)] for a string of ASCII digits; any other string, which
    Python may accept (signs, blanks, underscores) or refuse, is [None]
    here: the caller only passes digits.  The interpreter's limit on the
    number of digits is beyond the length of a file name. *)
Definition int_of_digits (s : string) : option Z :=
  if isdigit s then
    Some (foldl (λ acc c, acc * 10 + (Z.of_N (pystr.code c) - 48)) 0
            (pystr.chars s))
  else None.

(** [max(l, default=0)] *)
Definition max_default (l : list Z) : Z :=
  match l with
  | [] => 0
  | x :: r => foldl Z.max x r
  end.

(** The entries of the log directory are given by name, with whether each
    is a directory; [None] when the log directory does not exist.  [int]
    of a name that is not a number raises [ValueError]. *)
Definition get_next_game_number (log_dir : option (list (string * bool)))
  : result Z :=
  match log_dir with
  | None => Ok 1
  | Some entries =>
      existing_games ←
        mapM (M := result)
          (λ d : string * bool,
             match int_of_digits (remove_game d.1) with
             | Some n => Ok n
             | None => Raise (ValueError "invalid literal for int()")
             end)
          (filter (λ d : string * bool,
                     d.2 = true ∧ startswith "game" d.1 = true
                     ∧ isdigit (slice_from 4 d.1) = true) entries);
      Ok (max_default existing_games + 1)
  end.

(** ** display.py: the input gate *)

(** What happens at a prompt: a line is typed, or the user interrupts;
    when the list is exhausted, [input] raises [EOFError]. *)
Inductive console_event :=
| TypedLine (text : string)
| KeyboardInterrupt.

(** The three kinds of strings [get_user_guess] returns: ['quit'],
    ['guess'], or a single letter. *)
Inductive user_command :=
| CmdQuit
| CmdGuess
| CmdLetter (c : ascii).

(** [s.isalpha()]: not empty and all alphabetic. *)
Definition str_isalpha (s : string) : bool :=
  match s with
  | EmptyString => false
  | _ => forallb pystr.isalpha (pystr.chars s)
  end.

Definition quit_words : list string := ["quit"; "q"; "exit"].

(** [get_user_guess], with the events still to come when it returns
    (what it prints is left out). *)
Fixpoint get_user_guess (input : list console_event)
  : user_command * list console_event :=
  match input with
  | [] => (CmdQuit, [])
  | KeyboardInterrupt :: rest => (CmdQuit, rest)
  | TypedLine text :: rest =>
      let guess := pystr.lower (pystr.strip text) in
      if decide (guess ∈ quit_words) then (CmdQuit, rest)
      else if decide (guess = "guess") then (CmdGuess, rest)
      else
        match guess with
        | String c EmptyString =>
            if pystr.isalpha c then (CmdLetter c, rest)
            else get_user_guess rest
        | _ => get_user_guess rest
        end
  end.

(** [get_full_word_guess]: the guess, or ['quit']. *)
Fixpoint get_full_word_guess (input : list console_event)
  : string * list console_event :=
  match input with
  | [] => ("quit", [])
  | KeyboardInterrupt :: rest => ("quit", rest)
  | TypedLine text :: rest =>
      let guess := pystr.lower (pystr.strip text) in
      if decide (guess ∈ quit_words) then ("quit", rest)
      else if negb (String.eqb guess "")
              && str_isalpha (pystr.remove_spaces guess) then (guess, rest)
      else get_full_word_guess rest
  end.

(** [play_game] reading the console: the loop of the source, one turn per
    unit of [fuel]; [None] when the fuel runs out before the loop ends.
    The screens shown in between only print. *)
Fixpoint play_game_console (fuel : nat) (input : list console_event)
    (s : GameState) : option (play_status * GameState) :=
  match fuel with
  | O => None
  | S fuel =>
      if negb (game_won s) && negb (game_lost s) then
        match get_user_guess input with
        | (CmdQuit, _) => Some (QuitGame, s)
        | (CmdGuess, rest) =>
            let '(word_guess, rest) := get_full_word_guess rest in
            if decide (word_guess = "quit") then Some (QuitGame, s)
            else play_game_console fuel rest (process_word_guess word_guess s).2
        | (CmdLetter user_input, rest) =>
            play_game_console fuel rest (process_letter_guess user_input s).2
        end
      else Some (Ended, s)
  end.

(** An entry the input gate lets through to the state machine. *)
Definition gate_valid (i : user_input) : Prop :=
  match i with
  | Letter c =>
      pystr.isalpha c = true ∧ pystr.lower_char c = c ∧ c ≠ "q"%char
  | Word guess =>
      str_isalpha (pystr.remove_spaces guess) = true
      ∧ pystr.lower guess = guess ∧ guess ∉ quit_words
  | Quit => True
  end.

(** A categories directory holding two of the four files. *)
Definition sample_category_files (filename : string) : option (list string) :=
  if decide (filename = "science.txt") then Some ["Atom"; "  "; "Quark "]
  else if decide (filename = "animals.txt") then Some [" Cat "; ""]
  else None.

Definition sample_categories : wordlist.WordsDir :=
  {| wordlist.words_txt := None;
     wordlist.categories_dir := Some sample_category_files |}.

(* ===================================================================== *)
(** * Properties of the string primitives *)
(* ===================================================================== *)

Section pystr_facts.
Import pystr.

Lemma lower_char_idem (c : ascii) : lower_char (lower_char c) = lower_char c.
Proof. by destruct c as [[] [] [] [] [] [] [] []]. Qed.

Lemma lower_idem (s : string) : lower (lower s) = lower s.
Proof.
  unfold lower. induction s as [|c s IH]; simpl; [done|].
  by rewrite lower_char_idem, IH.
Qed.

Lemma chars_cons (c : ascii) (s : string) : chars (String c s) = c :: chars s.
Proof. done. Qed.

Lemma contains_true (c : ascii) (s : string) :
  contains c s = true ↔ c ∈ chars s.
Proof.
  induction s as [|d s IH].
  - simpl. split; [done|]. intros H. by apply elem_of_nil in H.
  - rewrite chars_cons, elem_of_cons. simpl contains.
    rewrite orb_true_iff, IH, Ascii.eqb_eq. done.
Qed.

Lemma contains_false (c : ascii) (s : string) :
  contains c s = false ↔ c ∉ chars s.
Proof.
  rewrite <- contains_true. destruct (contains c s); naive_solver.
Qed.

End pystr_facts.

(* ===================================================================== *)
(** * The state machine *)
(* ===================================================================== *)


(** Projections of assignments, without unfolding anything else. *)
Ltac simpl_state :=
  cbn [fst snd current_word current_category guessed_letters correct_letters
       wrong_letters wrong_guesses max_wrong_guesses game_won game_lost
       guess_count progress_trace current_game_number
       set_word set_guessed_letters set_correct_letters set_wrong_letters
       set_wrong_guesses set_max_wrong_guesses set_game_won set_game_lost
       set_guess_count set_progress_trace set_current_game_number] in *.

(** ** The three branches of [process_letter_guess] *)

Lemma letter_repeated (letter : ascii) (s : GameState) :
  pystr.lower_char letter ∈ guessed_letters s →
  process_letter_guess letter s = ("repeated", s).
Proof. intros H. unfold process_letter_guess. by rewrite decide_True. Qed.

Lemma letter_correct (letter : ascii) (s : GameState) :
  let l := pystr.lower_char letter in
  let s' := (process_letter_guess letter s).2 in
  l ∉ guessed_letters s → l ∈ pystr.chars (current_word s) →
  (process_letter_guess letter s).1 = "correct"
  ∧ current_word s' = current_word s
  ∧ max_wrong_guesses s' = max_wrong_guesses s
  ∧ guessed_letters s' = {[l]} ∪ guessed_letters s
  ∧ correct_letters s' = {[l]} ∪ correct_letters s
  ∧ wrong_letters s' = wrong_letters s
  ∧ wrong_guesses s' = wrong_guesses s
  ∧ guess_count s' = guess_count s + 1
  ∧ game_lost s' = game_lost s
  ∧ game_won s' =
      (if bool_decide (list_to_set (pystr.chars (current_word s))
                         ⊆ {[l]} ∪ correct_letters s)
       then true else game_won s).
Proof.
  intros l s' Hg Hc. subst l s'. unfold process_letter_guess.
  rewrite decide_False by done. cbv zeta. simpl current_word.
  apply contains_true in Hc. rewrite Hc.
  unfold is_word_complete. simpl.
  by destruct (bool_decide _).
Qed.

Lemma letter_wrong (letter : ascii) (s : GameState) :
  let l := pystr.lower_char letter in
  let s' := (process_letter_guess letter s).2 in
  l ∉ guessed_letters s → l ∉ pystr.chars (current_word s) →
  (process_letter_guess letter s).1 = "wrong"
  ∧ current_word s' = current_word s
  ∧ max_wrong_guesses s' = max_wrong_guesses s
  ∧ guessed_letters s' = {[l]} ∪ guessed_letters s
  ∧ correct_letters s' = correct_letters s
  ∧ wrong_letters s' = {[l]} ∪ wrong_letters s
  ∧ wrong_guesses s' = wrong_guesses s + 1
  ∧ guess_count s' = guess_count s + 1
  ∧ game_won s' = game_won s
  ∧ game_lost s' =
      (if max_wrong_guesses s <=? wrong_guesses s + 1
       then true else game_lost s).
Proof.
  intros l s' Hg Hc. subst l s'. unfold process_letter_guess.
  rewrite decide_False by done. cbv zeta. simpl current_word.
  apply contains_false in Hc. rewrite Hc. simpl.
  by destruct (_ <=? _).
Qed.

Lemma process_letter_guess_inv (letter : ascii) (s : GameState) :
  game_inv s → game_inv (process_letter_guess letter s).2.
Proof.
  intros [Hu Hc Hw Hm Hl Hlow].
  destruct (decide (pystr.lower_char letter ∈ guessed_letters s)) as [Hg|Hg].
  { rewrite letter_repeated by done. by split. }
  destruct (decide (pystr.lower_char letter ∈ pystr.chars (current_word s)))
    as [Hin|Hin].
  - destruct (letter_correct letter s Hg Hin)
      as (_ & Ew & Em & Eg & Ec & Ewl & Ewg & _ & El & _).
    split; rewrite ?Ew, ?Em, ?Eg, ?Ec, ?Ewl, ?Ewg, ?El; try done.
    + by rewrite <- Hu, (assoc_L (∪)).
    + intros c [->%elem_of_singleton|?]%elem_of_union; auto.
  - destruct (letter_wrong letter s Hg Hin)
      as (_ & Ew & Em & Eg & Ec & Ewl & Ewg & _ & _ & El).
    split; rewrite ?Ew, ?Em, ?Eg, ?Ec, ?Ewl, ?Ewg, ?El; try done.
    + by rewrite <- Hu, !(assoc_L (∪)), (comm_L (∪) (correct_letters s)).
    + intros c [->%elem_of_singleton|?]%elem_of_union; auto.
    + rewrite Hm. destruct (6 <=? wrong_guesses s + 1) eqn:E.
      * apply Z.leb_le in E. done.
      * apply Z.leb_gt in E. rewrite Hl. lia.
Qed.

(** ** The two branches of [process_word_guess] *)

Lemma mark_letter_fields (a : ascii) (s : GameState) :
  let s' := mark_letter s a in
  current_word s' = current_word s
  ∧ max_wrong_guesses s' = max_wrong_guesses s
  ∧ wrong_letters s' = wrong_letters s
  ∧ wrong_guesses s' = wrong_guesses s
  ∧ guess_count s' = guess_count s
  ∧ game_won s' = game_won s
  ∧ game_lost s' = game_lost s
  ∧ progress_trace s' = progress_trace s
  ∧ (∀ c, c ∈ correct_letters s' ↔
          c ∈ correct_letters s ∨ (c = a ∧ pystr.isalpha c = true))
  ∧ (∀ c, c ∈ guessed_letters s' ↔
          c ∈ guessed_letters s ∨ (c = a ∧ pystr.isalpha c = true)).
Proof.
  unfold mark_letter. destruct (pystr.isalpha a) eqn:Ha; simpl.
  - repeat split; try done; intros H.
    + apply elem_of_union in H as [->%elem_of_singleton|H]; auto.
    + apply elem_of_union. destruct H as [H|[-> _]];
        [by right | by left; apply elem_of_singleton].
    + apply elem_of_union in H as [->%elem_of_singleton|H]; auto.
    + apply elem_of_union. destruct H as [H|[-> _]];
        [by right | by left; apply elem_of_singleton].
  - repeat split; try done; try (by left);
      intros [H|[-> H]]; try done; congruence.
Qed.

Lemma mark_letters (cs : list ascii) (s : GameState) :
  let s' := foldl mark_letter s cs in
  current_word s' = current_word s
  ∧ max_wrong_guesses s' = max_wrong_guesses s
  ∧ wrong_letters s' = wrong_letters s
  ∧ wrong_guesses s' = wrong_guesses s
  ∧ guess_count s' = guess_count s
  ∧ game_won s' = game_won s
  ∧ game_lost s' = game_lost s
  ∧ progress_trace s' = progress_trace s
  ∧ (∀ c, c ∈ correct_letters s' ↔
          c ∈ correct_letters s ∨ (c ∈ cs ∧ pystr.isalpha c = true))
  ∧ (∀ c, c ∈ guessed_letters s' ↔
          c ∈ guessed_letters s ∨ (c ∈ cs ∧ pystr.isalpha c = true)).
Proof.
  revert s. induction cs as [|a cs IH]; intros s.
  - simpl. repeat split; try done; try (by left);
      intros [?|[[]%elem_of_nil _]]; done.
  - destruct (IH (mark_letter s a))
      as (Ew & Em & Ewl & Ewg & Egc & Ewon & El & Et & Hc & Hg).
    destruct (mark_letter_fields a s)
      as (Ew1 & Em1 & Ewl1 & Ewg1 & Egc1 & Ewon1 & El1 & Et1 & Hc1 & Hg1).
    cbn [foldl]. cbv zeta in *.
    rewrite Ew, Em, Ewl, Ewg, Egc, Ewon, El, Et.
    split_and!; try done; intros x.
    + rewrite Hc, Hc1, elem_of_cons. tauto.
    + rewrite Hg, Hg1, elem_of_cons. tauto.
Qed.

Lemma word_correct (guess : string) (s : GameState) :
  let s' := (process_word_guess guess s).2 in
  pystr.remove_spaces (pystr.lower guess)
    = pystr.remove_spaces (current_word s) →
  (process_word_guess guess s).1 = "correct"
  ∧ current_word s' = current_word s
  ∧ max_wrong_guesses s' = max_wrong_guesses s
  ∧ wrong_letters s' = wrong_letters s
  ∧ wrong_guesses s' = wrong_guesses s
  ∧ guess_count s' = guess_count s + 1
  ∧ game_won s' = true
  ∧ game_lost s' = game_lost s
  ∧ (∀ c, c ∈ correct_letters s' ↔
          c ∈ correct_letters s
          ∨ (c ∈ pystr.chars (current_word s) ∧ pystr.isalpha c = true))
  ∧ (∀ c, c ∈ guessed_letters s' ↔
          c ∈ guessed_letters s
          ∨ (c ∈ pystr.chars (current_word s) ∧ pystr.isalpha c = true)).
Proof.
  intros s' E. subst s'. unfold process_word_guess. cbv zeta.
  simpl_state. rewrite decide_True by done.
  destruct (mark_letters (pystr.chars (current_word s))
              (set_guess_count (guess_count s + 1) s))
    as (Ew & Em & Ewl & Ewg & Egc & Ewon & El & Et & Hc & Hg).
  simpl_state. by rewrite Ew, Em, Ewl, Ewg, Egc, El.
Qed.

Lemma word_wrong (guess : string) (s : GameState) :
  let s' := (process_word_guess guess s).2 in
  pystr.remove_spaces (pystr.lower guess)
    ≠ pystr.remove_spaces (current_word s) →
  (process_word_guess guess s).1 = "wrong"
  ∧ current_word s' = current_word s
  ∧ max_wrong_guesses s' = max_wrong_guesses s
  ∧ guessed_letters s' = guessed_letters s
  ∧ correct_letters s' = correct_letters s
  ∧ wrong_letters s' = wrong_letters s
  ∧ wrong_guesses s' = wrong_guesses s + 1
  ∧ guess_count s' = guess_count s + 1
  ∧ game_won s' = game_won s
  ∧ game_lost s' =
      (if max_wrong_guesses s <=? wrong_guesses s + 1
       then true else game_lost s).
Proof.
  intros s' E. subst s'. unfold process_word_guess. cbv zeta.
  simpl_state. rewrite decide_False by done. simpl_state.
  by destruct (max_wrong_guesses s <=? wrong_guesses s + 1).
Qed.

Lemma process_word_guess_inv (guess : string) (s : GameState) :
  game_inv s → game_inv (process_word_guess guess s).2.
Proof.
  intros [Hu Hc Hw Hm Hl Hlow].
  destruct (decide (pystr.remove_spaces (pystr.lower guess)
                    = pystr.remove_spaces (current_word s))) as [E|E].
  - destruct (word_correct guess s E)
      as (_ & Ew & Em & Ewl & Ewg & _ & _ & El & Hc' & Hg').
    split; rewrite ?Ew, ?Em, ?Ewl, ?Ewg, ?El; try done.
    + apply set_eq. intros c.
      rewrite elem_of_union, Hc', Hg', <- Hu, elem_of_union. tauto.
    + intros c [?|[? _]]%Hc'; auto.
  - destruct (word_wrong guess s E)
      as (_ & Ew & Em & Eg & Ec & Ewl & Ewg & _ & _ & El).
    split; rewrite ?Ew, ?Em, ?Eg, ?Ec, ?Ewl, ?Ewg, ?El; try done.
    rewrite Hm. destruct (6 <=? wrong_guesses s + 1) eqn:E'.
    + apply Z.leb_le in E'. done.
    + apply Z.leb_gt in E'. rewrite Hl. lia.
Qed.

(** ** The word source hands out lower-case, non-empty words *)

Lemma lower_empty (s : string) : pystr.lower s = "" → s = "".
Proof. by destruct s. Qed.

Lemma read_words_stored (lines : list string) (w : string) :
  w ∈ wordlist.read_words lines → stored_word w.
Proof.
  unfold wordlist.read_words.
  intros (l & -> & [Hne _]%list_elem_of_filter)%list_elem_of_fmap.
  split; [apply lower_idem|]. by intros ?%lower_empty.
Qed.

Lemma dict_get_set {V} (k k' : string) (v : V) (d : list (string * V)) :
  wordlist.dict_get k' (wordlist.dict_set k v d)
  = if decide (k' = k) then Some v else wordlist.dict_get k' d.
Proof.
  induction d as [|[k0 v0] d IH]; simpl.
  - by destruct (decide (k' = k)).
  - destruct (decide (k = k0)) as [->|Hne]; simpl.
    + by destruct (decide (k' = k0)).
    + destruct (decide (k' = k0)) as [->|Hne'].
      * by rewrite decide_False by done.
      * done.
Qed.

Lemma load_categories_stored (files : string → option (list string))
    (cats : list (string * string)) (d : list (string * list string)) :
  (∀ k ws, wordlist.dict_get k d = Some ws → ∀ w, w ∈ ws → stored_word w) →
  ∀ k ws,
    wordlist.dict_get k
      (foldl (λ acc '(category, filename),
                match files filename with
                | Some lines =>
                    wordlist.dict_set category (wordlist.read_words lines) acc
                | None => acc
                end) d cats) = Some ws →
    ∀ w, w ∈ ws → stored_word w.
Proof.
  revert d. induction cats as [|[category filename] cats IH]; intros d Hd;
    [done|].
  cbn [foldl]. apply IH. destruct (files filename) as [lines|]; [|done].
  intros k ws. rewrite dict_get_set.
  destruct (decide (k = category)); [|by apply Hd].
  intros [= <-]. apply read_words_stored.
Qed.

Lemma load_words_stored (words_dir : wordlist.WordsDir) :
  all_stored (wordlist.load_words words_dir wordlist.no_words).
Proof.
  unfold wordlist.load_words.
  split; cbn [wordlist._all_words wordlist._category_words wordlist.no_words].
  - destruct (wordlist.words_txt words_dir) as [lines|].
    + apply read_words_stored.
    + by intros w []%elem_of_nil.
  - destruct (wordlist.categories_dir words_dir) as [files|]; [|done].
    by apply load_categories_stored.
Qed.

Lemma choice_elem {A} (r : nat) (x : A) (l : list A) :
  wordlist.choice r x l ∈ x :: l.
Proof.
  unfold wordlist.choice. apply list_elem_of_In, nth_In.
  change (length (x :: l)) with (S (length l)).
  apply Nat.mod_upper_bound. done.
Qed.

Lemma get_random_word_stored (g : wordlist.Words) (category : option string)
    (r : nat) (word actual : string) :
  all_stored g →
  wordlist.get_random_word g category r = Ok (word, actual) →
  stored_word word.
Proof.
  intros [Hall Hcat]. unfold wordlist.get_random_word.
  destruct category as [category|].
  - destruct (wordlist.dict_get _ _) as [[|w ws]|] eqn:E; try done.
    intros [= <- _]. eapply Hcat; [exact E|]. apply choice_elem.
  - destruct (wordlist._all_words g) as [|w ws] eqn:E; [done|].
    intros [= <- _]. apply Hall. rewrite ?E. apply choice_elem.
Qed.

(** ** Invariants of the reachable states *)

Lemma started_fields (words_dir : wordlist.WordsDir) (s : GameState) :
  started words_dir s →
  stored_word (current_word s)
  ∧ guessed_letters s = ∅ ∧ correct_letters s = ∅ ∧ wrong_letters s = ∅
  ∧ wrong_guesses s = 0 ∧ max_wrong_guesses s = 6
  ∧ game_won s = false ∧ game_lost s = false ∧ guess_count s = 0.
Proof.
  intros [prev category r n s' Hmax Hstart].
  unfold start_new_game in Hstart.
  destruct (wordlist.get_random_word _ category r) as [[word actual]|e] eqn:E;
    [|done].
  injection Hstart as <-. unfold reset_game_state. simpl_state.
  split_and!; try done.
  eapply get_random_word_stored; [|exact E]. apply load_words_stored.
Qed.

Lemma started_inv (words_dir : wordlist.WordsDir) (s : GameState) :
  started words_dir s → game_inv s.
Proof.
  intros ([Hw _] & Hg & Hc & Hwl & Hwg & Hm & _ & Hl & _)%started_fields.
  split; rewrite ?Hg, ?Hc, ?Hwl, ?Hwg, ?Hl; done.
Qed.

Lemma step_inv (s s' : GameState) : step s s' → game_inv s → game_inv s'.
Proof.
  intros [letter s0|guess s0].
  - apply process_letter_guess_inv.
  - apply process_word_guess_inv.
Qed.

Lemma reachable_inv (words_dir : wordlist.WordsDir) (s : GameState) :
  reachable words_dir s → game_inv s.
Proof.
  induction 1 as [s Hs|s s' _ IH Hstep].
  - by eapply started_inv.
  - by eapply step_inv.
Qed.

Lemma played_reachable (words_dir : wordlist.WordsDir) (s : GameState) :
  played words_dir s → reachable words_dir s.
Proof.
  induction 1 as [s Hs|s s' _ IH _ Hstep].
  - by apply reach_start.
  - by eapply reach_step.
Qed.

(** ** Exactly one flag ends a game *)

Lemma step_exclusive (s s' : GameState) :
  in_progress s → step s s' → game_won s' && game_lost s' = false.
Proof.
  intros Hp Hstep.
  destruct Hstep as [letter s0|guess s0]; destruct Hp as [Hw Hl].
  - destruct (decide (pystr.lower_char letter ∈ guessed_letters s0)) as [Hg|Hg].
    { rewrite letter_repeated by done. simpl. by rewrite Hw. }
    destruct (decide (pystr.lower_char letter ∈ pystr.chars (current_word s0)))
      as [Hin|Hin].
    + destruct (letter_correct letter s0 Hg Hin)
        as (_ & _ & _ & _ & _ & _ & _ & _ & El & _).
      rewrite El, Hl. apply andb_false_r.
    + destruct (letter_wrong letter s0 Hg Hin)
        as (_ & _ & _ & _ & _ & _ & _ & _ & Ew & _).
      by rewrite Ew, Hw.
  - destruct (decide (pystr.remove_spaces (pystr.lower guess)
                      = pystr.remove_spaces (current_word s0))) as [E|E].
    + destruct (word_correct guess s0 E)
        as (_ & _ & _ & _ & _ & _ & _ & El & _).
      rewrite El, Hl. apply andb_false_r.
    + destruct (word_wrong guess s0 E)
        as (_ & _ & _ & _ & _ & _ & _ & _ & Ew & _).
      by rewrite Ew, Hw.
Qed.

Lemma play_game_guard (s : GameState) :
  negb (game_won s) && negb (game_lost s) = true ↔ in_progress s.
Proof.
  unfold in_progress. rewrite andb_true_iff, !negb_true_iff. done.
Qed.

(** When the loop of [play_game] has run to its end, the game is either
    won or lost, and not both. *)
Lemma play_game_ended (inputs : list user_input) (s s' : GameState) :
  game_won s && game_lost s = false →
  play_game inputs s = (Ended, s') →
  game_lost s' = negb (game_won s').
Proof.
  revert s. induction inputs as [|i inputs IH]; intros s Hex; simpl;
    destruct (negb (game_won s) && negb (game_lost s)) eqn:G.
  - done.
  - intros [= <-]. destruct (game_won s), (game_lost s); done.
  - apply play_game_guard in G.
    destruct i as [c|guess|]; [| |done].
    + apply IH. apply step_exclusive with s; [done|constructor].
    + apply IH. apply step_exclusive with s; [done|constructor].
  - intros [= <-]. destruct (game_won s), (game_lost s); done.
Qed.

Lemma played_exclusive (words_dir : wordlist.WordsDir) (s : GameState) :
  played words_dir s → game_won s && game_lost s = false.
Proof.
  intros [s0 Hs|s0 s1 _ Hp Hstep].
  - apply started_fields in Hs as (_ & _ & _ & _ & _ & _ & -> & _). done.
  - by eapply step_exclusive.
Qed.

(* ===================================================================== *)
(** * The claims *)
(* ===================================================================== *)



(** The score [end_game] computes once [play_game] has run a started game
    to its end: 0 unless the game is won. *)
Lemma end_game_score_spec (words_dir : wordlist.WordsDir)
    (inputs : list user_input) (s0 s : GameState) :
  started words_dir s0 →
  play_game inputs s0 = (Ended, s) →
  end_game_score s
  = if game_won s
    then Z.max (Z.of_nat (String.length (current_word s)) * 10
                - wrong_guesses s * 5) 10
    else 0.
Proof.
  intros Hs Hplay. unfold end_game_score, calculate_score.
  rewrite (play_game_ended inputs s0 s); [by destruct (game_won s)| |done].
  apply started_fields in Hs as (_ & _ & _ & _ & _ & _ & -> & _). done.
Qed.

(** C6: guessing a letter that, after case folding, is already in
    [guessed_letters] returns "repeated" and leaves the whole state as it
    was: the counters, the three letter sets, both flags and the progress
    trace. *)
Theorem repeated_letter_unchanged (s : GameState) (letter : ascii) :
  pystr.lower_char letter ∈ guessed_letters s →
  (process_letter_guess letter s).1 = "repeated"
  ∧ (process_letter_guess letter s).2 = s
  ∧ guess_count (process_letter_guess letter s).2 = guess_count s
  ∧ wrong_guesses (process_letter_guess letter s).2 = wrong_guesses s
  ∧ guessed_letters (process_letter_guess letter s).2 = guessed_letters s
  ∧ correct_letters (process_letter_guess letter s).2 = correct_letters s
  ∧ wrong_letters (process_letter_guess letter s).2 = wrong_letters s
  ∧ game_won (process_letter_guess letter s).2 = game_won s
  ∧ game_lost (process_letter_guess letter s).2 = game_lost s
  ∧ progress_trace (process_letter_guess letter s).2 = progress_trace s.
Proof. intros H. by rewrite letter_repeated. Qed.

(** C7: in every state reached from a started game by letter and
    whole-word guesses, the correct and the wrong letters together are the
    guessed letters, and no letter is both correct and wrong. *)
Theorem letter_sets_partition (words_dir : wordlist.WordsDir) (s : GameState) :
  reachable words_dir s →
  correct_letters s ∪ wrong_letters s = guessed_letters s
  ∧ correct_letters s ∩ wrong_letters s = ∅.
Proof.
  intros [Hu Hc Hw _ _ _]%reachable_inv. split; [done|].
  apply set_eq. intros c. rewrite elem_of_intersection. split.
  - intros [H1 H2]. destruct (Hw c H2 (Hc c H1)).
  - by intros []%elem_of_empty.
Qed.

(** C3: in a game in progress, a whole-word guess that equals the target
    once both are case-folded and freed of spaces returns "correct", sets
    [game_won], and puts every alphabetic character of the target into
    both [guessed_letters] and [correct_letters], whether or not it was
    guessed before. *)
Theorem word_guess_match (words_dir : wordlist.WordsDir) (s : GameState)
    (guess : string) :
  reachable words_dir s → in_progress s →
  fold_word guess = fold_word (current_word s) →
  (process_word_guess guess s).1 = "correct"
  ∧ game_won (process_word_guess guess s).2 = true
  ∧ ∀ c, c ∈ pystr.chars (current_word s) → pystr.isalpha c = true →
         c ∈ guessed_letters (process_word_guess guess s).2
         ∧ c ∈ correct_letters (process_word_guess guess s).2.
Proof.
  intros Hr _ E. apply reachable_inv in Hr as [_ _ _ _ _ Hlow].
  unfold fold_word in E. rewrite Hlow in E.
  destruct (word_correct guess s E)
    as (Er & _ & _ & _ & _ & _ & Ewon & _ & Hc & Hg).
  split_and!; try done. intros c Hin Ha. rewrite Hc, Hg. auto.
Qed.

(** C4: in a game in progress, a whole-word guess that differs from the
    target (both case-folded and freed of spaces) returns "wrong", adds
    exactly one to [wrong_guesses] and one to [guess_count], leaves the
    three letter sets as they were, and sets [game_lost] exactly when
    [wrong_guesses] thereby reaches 6. *)
Theorem word_guess_mismatch (words_dir : wordlist.WordsDir) (s : GameState)
    (guess : string) :
  reachable words_dir s → in_progress s →
  fold_word guess ≠ fold_word (current_word s) →
  let s' := (process_word_guess guess s).2 in
  (process_word_guess guess s).1 = "wrong"
  ∧ wrong_guesses s' = wrong_guesses s + 1
  ∧ guess_count s' = guess_count s + 1
  ∧ guessed_letters s' = guessed_letters s
  ∧ correct_letters s' = correct_letters s
  ∧ wrong_letters s' = wrong_letters s
  ∧ game_won s' = game_won s
  ∧ (game_lost s' = true ↔ wrong_guesses s' = 6)
  ∧ (game_lost s' = true ↔ 6 ≤ wrong_guesses s').
Proof.
  intros Hr [_ Hl] E s'. subst s'.
  apply reachable_inv in Hr as [_ _ _ Hm Hlost Hlow].
  unfold fold_word in E. rewrite Hlow in E.
  destruct (word_wrong guess s E)
    as (Er & _ & _ & Eg & Ec & Ewl & Ewg & Egc & Ewon & El).
  split_and!; try done; rewrite El, Ewg, Hm, Hl.
  - destruct (6 <=? wrong_guesses s + 1) eqn:Hle.
    + apply Z.leb_le in Hle. split; [|done]. intros _.
      assert (¬ 6 ≤ wrong_guesses s) by (rewrite <- Hlost, Hl; done). lia.
    + apply Z.leb_gt in Hle. split; [done|lia].
  - destruct (6 <=? wrong_guesses s + 1) eqn:Hle.
    + by apply Z.leb_le in Hle.
    + apply Z.leb_gt in Hle. split; [done|lia].
Qed.

(** ** Runs of wrong letters *)

Lemma wrong_letters_run (letters : list ascii) (s : GameState) :
  max_wrong_guesses s = 6 → in_progress s → wrong_guesses s < 6 →
  wrong_guesses s + Z.of_nat (length letters) ≤ 6 →
  NoDup (pystr.lower_char <$> letters) →
  (∀ c, c ∈ letters → pystr.lower_char c ∉ guessed_letters s) →
  (∀ c, c ∈ letters →
        pystr.contains (pystr.lower_char c) (current_word s) = false) →
  let s' := guess_letters letters s in
  play_game (Letter <$> letters) s
  = (if decide (wrong_guesses s + Z.of_nat (length letters) = 6)
     then Ended else Waiting, s')
  ∧ wrong_guesses s' = wrong_guesses s + Z.of_nat (length letters)
  ∧ game_won s' = false
  ∧ game_lost s'
    = bool_decide (wrong_guesses s + Z.of_nat (length letters) = 6).
Proof.
  revert s. induction letters as [|c letters IH];
    intros s Hm Hp Hlt Hle Hnd Hfresh Hout; cbv zeta.
  - destruct Hp as [Hw Hl]. cbn [fmap list_fmap play_game guess_letters foldl].
    rewrite Hw, Hl. cbn [negb andb length Z.of_nat].
    rewrite decide_False by lia. rewrite bool_decide_eq_false_2 by lia.
    split_and!; (done || lia).
  - assert (pystr.lower_char c ∉ guessed_letters s) as Hg
      by (apply Hfresh; left).
    assert (pystr.lower_char c ∉ pystr.chars (current_word s)) as Hc
      by (apply contains_false, Hout; left).
    destruct (letter_wrong c s Hg Hc)
      as (_ & Ew & Emax & Eg & _ & _ & Ewg & _ & Ewon & El).
    apply NoDup_cons in Hnd as [Hnotin Hnd].
    change (fmap Letter (c :: letters))
      with (Letter c :: (Letter <$> letters)).
    change (guess_letters (c :: letters) s)
      with (guess_letters letters (process_letter_guess c s).2).
    cbn [play_game]. destruct Hp as [Hw Hl]. rewrite Hw, Hl.
    cbn [negb andb].
    rewrite Hm in El. rewrite Hl in El. rewrite Hw in Ewon.
    rewrite length_cons, Nat2Z.inj_succ in *.
    destruct (6 <=? wrong_guesses s + 1) eqn:Hlim.
    + apply Z.leb_le in Hlim.
      destruct letters as [|c' letters]; [|simpl in Hle; lia].
      cbn [fmap list_fmap play_game guess_letters foldl length Z.of_nat].
      rewrite Ewon, El. cbn [negb andb].
      rewrite decide_True by lia. rewrite bool_decide_eq_true_2 by lia.
      split_and!; (done || lia).
    + apply Z.leb_gt in Hlim.
      destruct (IH (process_letter_guess c s).2) as (Hplay & Hwg & Hwon & Hlost).
      * by rewrite Emax.
      * by split.
      * lia.
      * lia.
      * done.
      * intros d Hd. rewrite Eg. intros [Heq%elem_of_singleton|Hin]%elem_of_union.
        -- apply Hnotin. rewrite <- Heq. by apply list_elem_of_fmap_2.
        -- by apply (Hfresh d); [right|].
      * intros d Hd. rewrite Ew. apply Hout. by right.
      * rewrite Hplay, Hwg, Hwon, Hlost, Ewg.
        replace (wrong_guesses s + 1 + Z.of_nat (length letters))
          with (wrong_guesses s + Z.succ (Z.of_nat (length letters))) by lia.
        done.
Qed.

(** C5: from a freshly started game, six letters that are distinct after
    case folding and none of which occurs in the target word are all
    processed by the loop of [play_game]; after each of the first five the
    game is not lost (the prompt waits, with as many wrong guesses as
    letters entered), and after the sixth [game_lost] is set with
    [wrong_guesses = 6], whatever the order of the letters. *)
Theorem six_wrong_letters_lose (words_dir : wordlist.WordsDir)
    (s0 : GameState) (letters : list ascii) :
  started words_dir s0 → length letters = 6%nat →
  NoDup (pystr.lower_char <$> letters) →
  (∀ c, c ∈ letters →
        pystr.contains (pystr.lower_char c) (current_word s0) = false) →
  (∀ k, (k < 6)%nat →
        let s := guess_letters (take k letters) s0 in
        play_game (Letter <$> take k letters) s0 = (Waiting, s)
        ∧ game_lost s = false ∧ game_won s = false
        ∧ wrong_guesses s = Z.of_nat k)
  ∧ (let s := guess_letters letters s0 in
     play_game (Letter <$> letters) s0 = (Ended, s)
     ∧ game_lost s = true ∧ game_won s = false ∧ wrong_guesses s = 6).
Proof.
  intros Hs Hlen Hnd Hout.
  apply started_fields in Hs
    as (_ & Hg & _ & _ & Hwg & Hm & Hwon & Hl & _).
  split.
  - intros k Hk.
    destruct (wrong_letters_run (take k letters) s0)
      as (Hplay & Hwg' & Hwon' & Hlost'); try done.
    + lia.
    + rewrite length_take, Hwg. lia.
    + rewrite fmap_take. eapply sublist_NoDup; [done|apply sublist_take].
    + intros c _. rewrite Hg. apply not_elem_of_empty.
    + intros c Hc%elem_of_take. destruct Hc as (i & Hc & _).
      apply Hout. by eapply list_elem_of_lookup_2.
    + rewrite length_take, Hlen, Hwg in *.
      rewrite decide_False in Hplay by lia.
      rewrite bool_decide_eq_false_2 in Hlost' by lia.
      split_and!; (done || lia).
  - destruct (wrong_letters_run letters s0)
      as (Hplay & Hwg' & Hwon' & Hlost'); try done.
    + lia.
    + rewrite Hlen, Hwg. lia.
    + intros c _. rewrite Hg. apply not_elem_of_empty.
    + rewrite Hlen, Hwg in *.
      rewrite decide_True in Hplay by lia.
      rewrite bool_decide_eq_true_2 in Hlost' by lia.
      split_and!; (done || lia).
Qed.

(** ** Sample runs *)

Lemma sample_started (r : nat) : started sample_words (sample_game r).
Proof.
  apply (started_intro sample_words (initialize_game sample_words).1 None r 1);
    reflexivity.
Qed.

Lemma sample_words_drawn :
  current_word (sample_game 0) = "cat"
  ∧ current_word (sample_game 1) = "dog"
  ∧ current_word (sample_game 2) = "ice cream".
Proof. by vm_compute. Qed.

Lemma calculate_score_finished_only :
  let s := sample_game 0 in
  game_won s = false ∧ game_lost s = false ∧ calculate_score s 5 0 = 50.
Proof. by vm_compute. Qed.

Lemma repeated_letter_unchanged_witness :
  let s := guess_letters ["c"; "x"]%char (sample_game 0) in
  pystr.lower_char "C" ∈ guessed_letters s
  ∧ process_letter_guess "C" s = ("repeated", s).
Proof.
  assert (pystr.lower_char "C"
          ∈ guessed_letters (guess_letters ["c"; "x"]%char (sample_game 0)))
    as H by (apply (bool_decide_unpack _); vm_compute; exact I).
  split; [exact H|].
  destruct (repeated_letter_unchanged _ _ H) as (E1 & E2 & _).
  by rewrite (surjective_pairing (process_letter_guess _ _)), E1, E2.
Defined.

Lemma letter_sets_partition_witness :
  let s := (process_word_guess "cot"
              (guess_letters ["c"; "x"]%char (sample_game 0))).2 in
  reachable sample_words s
  ∧ correct_letters s ∪ wrong_letters s = guessed_letters s
  ∧ correct_letters s ∩ wrong_letters s = ∅.
Proof.
  assert (reachable sample_words
            (process_word_guess "cot"
               (guess_letters ["c"; "x"]%char (sample_game 0))).2) as H.
  { eapply reach_step; [|apply step_word].
    eapply reach_step; [|apply (step_letter "x")].
    eapply reach_step; [|apply (step_letter "c")].
    apply reach_start, sample_started. }
  split; [exact H|]. exact (letter_sets_partition _ _ H).
Defined.

Lemma word_guess_match_witness :
  let s := sample_game 2 in
  reachable sample_words s ∧ in_progress s
  ∧ fold_word "Ice Cream" = fold_word (current_word s)
  ∧ (process_word_guess "Ice Cream" s).1 = "correct"
  ∧ game_won (process_word_guess "Ice Cream" s).2 = true.
Proof.
  assert (reachable sample_words (sample_game 2)) as Hr
    by apply reach_start, sample_started.
  assert (in_progress (sample_game 2)) as Hp by (split; reflexivity).
  assert (fold_word "Ice Cream" = fold_word (current_word (sample_game 2)))
    as E by reflexivity.
  destruct (word_guess_match _ _ _ Hr Hp E) as (E1 & E2 & _).
  by split_and!.
Defined.

Lemma word_guess_mismatch_witness :
  let s := sample_game 1 in
  reachable sample_words s ∧ in_progress s
  ∧ fold_word "cat" ≠ fold_word (current_word s)
  ∧ wrong_guesses (process_word_guess "cat" s).2 = wrong_guesses s + 1
  ∧ guessed_letters (process_word_guess "cat" s).2 = guessed_letters s.
Proof.
  assert (reachable sample_words (sample_game 1)) as Hr
    by apply reach_start, sample_started.
  assert (in_progress (sample_game 1)) as Hp by (split; reflexivity).
  assert (fold_word "cat" ≠ fold_word (current_word (sample_game 1)))
    as E by (vm_compute; discriminate).
  destruct (word_guess_mismatch _ _ _ Hr Hp E) as (_ & E1 & _ & E2 & _).
  by split_and!.
Defined.

Lemma six_wrong_letters_lose_witness :
  let letters := ["a"; "B"; "c"; "e"; "f"; "h"]%char in
  let s := guess_letters letters (sample_game 1) in
  started sample_words (sample_game 1)
  ∧ length letters = 6%nat
  ∧ NoDup (pystr.lower_char <$> letters)
  ∧ play_game (Letter <$> letters) (sample_game 1) = (Ended, s)
  ∧ game_lost s = true ∧ wrong_guesses s = 6.
Proof.
  assert (NoDup (pystr.lower_char <$> ["a"; "B"; "c"; "e"; "f"; "h"]%char))
    as Hnd by (apply (bool_decide_unpack _); vm_compute; exact I).
  assert (∀ c, c ∈ ["a"; "B"; "c"; "e"; "f"; "h"]%char →
               pystr.contains (pystr.lower_char c)
                 (current_word (sample_game 1)) = false) as Hout.
  { apply Forall_forall. repeat constructor. }
  destruct (six_wrong_letters_lose sample_words (sample_game 1)
              ["a"; "B"; "c"; "e"; "f"; "h"]%char
              (sample_started 1) eq_refl Hnd Hout)
    as (_ & E1 & E2 & _ & E3).
  cbv zeta. split; [apply sample_started|]. split; [reflexivity|].
  split; [exact Hnd|]. split; [exact E1|]. split; [exact E2|exact E3].
Defined.

(** ** The win flag under letter guesses *)

Lemma letter_guess_won (letter : ascii) (s : GameState) :
  (game_won s = true ↔
   list_to_set (pystr.chars (current_word s)) ⊆ correct_letters s) →
  let s' := (process_letter_guess letter s).2 in
  current_word s' = current_word s
  ∧ (game_won s' = true ↔
     list_to_set (pystr.chars (current_word s)) ⊆ correct_letters s').
Proof.
  intros Hiff s'. subst s'.
  destruct (decide (pystr.lower_char letter ∈ guessed_letters s)) as [Hg|Hg].
  { by rewrite letter_repeated. }
  destruct (decide (pystr.lower_char letter ∈ pystr.chars (current_word s)))
    as [Hin|Hin].
  - destruct (letter_correct letter s Hg Hin)
      as (_ & Ew & _ & _ & Ec & _ & _ & _ & _ & Ewon).
    split; [done|]. rewrite Ewon, Ec.
    destruct (decide (list_to_set (pystr.chars (current_word s))
                        ⊆ {[pystr.lower_char letter]} ∪ correct_letters s))
      as [Hsub|Hsub].
    + by rewrite bool_decide_eq_true_2.
    + rewrite bool_decide_eq_false_2 by done. split; [|done].
      intros Hwon%Hiff. destruct Hsub. by apply union_subseteq_r'.
  - destruct (letter_wrong letter s Hg Hin)
      as (_ & Ew & _ & _ & Ec & _ & _ & _ & Ewon & _).
    by rewrite Ewon, Ec.
Qed.

Lemma guess_letters_won (letters : list ascii) (s : GameState) :
  (game_won s = true ↔
   list_to_set (pystr.chars (current_word s)) ⊆ correct_letters s) →
  let s' := guess_letters letters s in
  current_word s' = current_word s
  ∧ (game_won s' = true ↔
     list_to_set (pystr.chars (current_word s)) ⊆ correct_letters s').
Proof.
  revert s. induction letters as [|c letters IH]; intros s Hiff; [done|].
  destruct (letter_guess_won c s Hiff) as [Ew Hiff'].
  rewrite <- Ew in Hiff'.
  destruct (IH _ Hiff') as [Ew' Hiff''].
  change (guess_letters (c :: letters) s)
    with (guess_letters letters (process_letter_guess c s).2).
  cbv zeta. by rewrite Ew', Ew in *.
Qed.

(** X30: what the code maintains under letter guesses: the game is won exactly
    when every character of the target word, alphabetic or not, is in
    [correct_letters]. *)
Lemma won_iff_all_characters (words_dir : wordlist.WordsDir)
    (s0 : GameState) (letters : list ascii) :
  started words_dir s0 →
  let s := guess_letters letters s0 in
  game_won s = true ↔
  ∀ c, c ∈ pystr.chars (current_word s) → c ∈ correct_letters s.
Proof.
  intros Hs s.
  apply started_fields in Hs as ([_ Hne] & _ & Hc & _ & _ & _ & Hwon & _).
  destruct (guess_letters_won letters s0) as [Ew Hiff].
  - rewrite Hwon, Hc. split; [done|]. intros Hsub.
    destruct (current_word s0) as [|c w]; [done|].
    assert (c ∈ (∅ : gset ascii)) as []%elem_of_empty.
    apply Hsub, elem_of_list_to_set. left.
  - subst s. rewrite Hiff, Ew. split.
    + intros Hsub c Hin. by apply Hsub, elem_of_list_to_set.
    + intros Hall c Hin%elem_of_list_to_set. by apply Hall.
Qed.

(** For a purely alphabetic target this is the win condition of the
    specification. *)
Lemma won_iff_alphabetic_covered (words_dir : wordlist.WordsDir)
    (s0 : GameState) (letters : list ascii) :
  started words_dir s0 →
  (∀ c, c ∈ pystr.chars (current_word s0) → pystr.isalpha c = true) →
  let s := guess_letters letters s0 in
  game_won s = true ↔ alphabetic_covered s.
Proof.
  intros Hs Halpha s.
  assert (current_word s = current_word s0) as Ew.
  { destruct (guess_letters_won letters s0) as [Ew _]; [|done].
    apply started_fields in Hs as ([_ Hne] & _ & Hc & _ & _ & _ & Hwon & _).
    rewrite Hwon, Hc. split; [done|]. intros Hsub.
    destruct (current_word s0) as [|c w]; [done|].
    assert (c ∈ (∅ : gset ascii)) as []%elem_of_empty.
    apply Hsub, elem_of_list_to_set. left. }
  subst s. rewrite (won_iff_all_characters words_dir s0 letters Hs).
  unfold alphabetic_covered. rewrite Ew. split.
  - intros H c Hin _. by apply H.
  - intros H c Hin. apply H; [done|]. by apply Halpha.
Qed.

(** C1 (the code departs from the claim): with the target "ice cream",
    the six letter guesses i, c, e, r, a, m are all accepted by the loop
    of [play_game] and leave every alphabetic character of the target in
    [correct_letters], yet [game_won] stays false and the prompt waits for
    more: [is_word_complete] also asks for the space, which no letter
    guess can supply. *)
Theorem alphabetic_covered_not_won :
  let letters := ["i"; "c"; "e"; "r"; "a"; "m"]%char in
  let s := guess_letters letters (sample_game 2) in
  started sample_words (sample_game 2)
  ∧ current_word (sample_game 2) = "ice cream"
  ∧ play_game (Letter <$> letters) (sample_game 2) = (Waiting, s)
  ∧ alphabetic_covered s
  ∧ game_won s = false.
Proof.
  cbv zeta. split; [apply sample_started|]. split; [reflexivity|].
  split; [by vm_compute|]. split; [|by vm_compute].
  unfold alphabetic_covered.
  apply (Forall_forall (λ c, pystr.isalpha c = true → c ∈ correct_letters _)).
  apply (bool_decide_unpack _). vm_compute. exact I.
Qed.

(* ===================================================================== *)
(** * Statistics *)
(* ===================================================================== *)

Lemma backfill_lookup (items : list (string * pyval))
    (loaded : gmap string pyval) (k : string) :
  foldl (λ loaded '(key, default_value),
           match loaded !! key with
           | None => <[key := default_value]> loaded
           | Some _ => loaded
           end) loaded items !! k
  = match loaded !! k with
    | Some v => Some v
    | None => (list_to_map items : gmap string pyval) !! k
    end.
Proof.
  revert loaded. induction items as [|[k0 v0] items IH]; intros loaded.
  - simpl. rewrite lookup_empty. by destruct (loaded !! k).
  - cbn [foldl]. rewrite IH.
    change (list_to_map ((k0, v0) :: items) : gmap string pyval)
      with (<[k0 := v0]> (list_to_map items : gmap string pyval)).
    destruct (loaded !! k0) eqn:E0.
    + destruct (loaded !! k) eqn:Ek; [done|].
      rewrite lookup_insert_ne; [done|]. intros ->. congruence.
    + destruct (decide (k0 = k)) as [->|Hne].
      * by rewrite !lookup_insert_eq, E0.
      * rewrite !lookup_insert_ne by done. done.
Qed.

(** [load_statistics] always returns; it leaves the file and the write
    permission as they were. *)
Lemma load_statistics_total (w : World) :
  ∃ stats w',
    load_statistics w = (Ok stats, w')
    ∧ stats_file w' = stats_file w
    ∧ stats_write_error w' = stats_write_error w
    ∧ log_files w' = log_files w
    ∧ log_write_error w' = log_write_error w.
Proof.
  unfold load_statistics, mbind, M_bind, read.
  destruct (stats_file w) eqn:E; eexists _, _; (split; [reflexivity|]);
    simpl; by rewrite ?E.
Qed.

Lemma counter_lookup (stats : gmap string pyval) (key : string) (n : Z) :
  counter stats key = Some n ↔ stats !! key = Some (PInt n).
Proof.
  unfold counter. destruct (stats !! key) as [[]|]; naive_solver.
Qed.

Lemma counter_insert (stats : gmap string pyval) (key key' : string)
    (v : pyval) :
  counter (<[key := v]> stats) key'
  = if decide (key = key')
    then match v with PInt n => Some n | _ => None end
    else counter stats key'.
Proof.
  unfold counter. rewrite lookup_insert. by destruct (decide (key = key')).
Qed.

Lemma iadd_counter (stats : gmap string pyval) (key : string) (n m : Z) :
  counter stats key = Some n →
  iadd key m stats = Ok (<[key := PInt (n + m)]> stats).
Proof.
  intros H%counter_lookup. unfold iadd, getitem. by rewrite H.
Qed.

Lemma getitem_counter (stats : gmap string pyval) (key : string) (n : Z) :
  counter stats key = Some n → getitem stats key = Ok (PInt n).
Proof. intros H%counter_lookup. unfold getitem. by rewrite H. Qed.

Lemma py_truediv_int (a b : Z) :
  b ≠ 0 →
  py_truediv (PInt a) (PInt b)
  = Ok (PrimFloat.div (float_of_int a) (float_of_int b)).
Proof.
  intros Hb. unfold py_truediv. cbn [as_num num_is_zero num_to_float].
  by rewrite (proj2 (Z.eqb_neq b 0)).
Qed.

(** Running a computation whose first step is known. *)
Lemma bind_ok {A B} (m : M A) (k : A → M B) (w w' : World) (a : A) :
  m w = (Ok a, w') → (m ≫= k) w = k a w'.
Proof. intros H. unfold mbind, M_bind. by rewrite H. Qed.

Lemma bind_lift_ok {A B} (a : A) (k : A → M B) (w : World) :
  (lift (Ok a) ≫= k) w = k a w.
Proof. done. Qed.

(** Counters read through a chain of assignments to known keys. *)
Ltac solve_counter :=
  rewrite ?counter_insert; repeat (case_decide; try done).

(** The record [update_statistics] returns when the loaded counters are
    integers: the four totals updated, the two rates and the time stamp. *)
Lemma update_statistics_int (now : string) (won : bool) (score : Z)
    (w w1 : World) (stats : gmap string pyval) (gp wins losses total : Z) :
  load_statistics w = (Ok stats, w1) →
  counters stats = Some (gp, wins, losses, total) →
  gp + 1 ≠ 0 →
  ∃ stats',
    update_statistics now won score w
    = (save_statistics stats';; mret stats') w1
    ∧ counters stats'
      = Some (gp + 1, wins + Z.b2z won, losses + Z.b2z (negb won),
              total + score)
    ∧ (∃ f, stats' !! "win_rate" = Some (PFloat f))
    ∧ (∃ f, stats' !! "average_score" = Some (PFloat f))
    ∧ stats' !! "last_played" = Some (PStr now).
Proof.
  intros Hload Hc Hgp. unfold counters in Hc.
  destruct (counter stats "games_played") as [gp0|] eqn:E1; [|done].
  destruct (counter stats "wins") as [wins0|] eqn:E2; [|done].
  destruct (counter stats "losses") as [losses0|] eqn:E3; [|done].
  destruct (counter stats "total_score") as [total0|] eqn:E4; [|done].
  simpl in Hc. injection Hc as -> -> -> ->.
  unfold update_statistics.
  rewrite (bind_ok _ _ _ _ _ Hload).
  rewrite (iadd_counter _ _ _ 1 E1), bind_lift_ok.
  destruct won.
  - rewrite (iadd_counter _ "wins" wins 1)
      by solve_counter.
    rewrite bind_lift_ok.
    rewrite (iadd_counter _ "total_score" total score)
      by solve_counter.
    rewrite bind_lift_ok.
    rewrite (getitem_counter _ "wins" (wins + 1)), bind_lift_ok
      by solve_counter.
    rewrite (getitem_counter _ "games_played" (gp + 1)), bind_lift_ok
      by solve_counter.
    rewrite py_truediv_int, bind_lift_ok by done.
    cbv zeta.
    rewrite (getitem_counter _ "total_score" (total + score)), bind_lift_ok
      by solve_counter.
    rewrite (getitem_counter _ "games_played" (gp + 1)), bind_lift_ok
      by solve_counter.
    rewrite py_truediv_int, bind_lift_ok by done.
    eexists. split; [reflexivity|].
    unfold counters. rewrite !counter_insert. cbn [Z.b2z negb].
    repeat (case_decide; try done).
    rewrite E3. cbn [mbind option_bind].
    split_and!.
    + repeat (lia || f_equal).
    + eexists. by simplify_map_eq.
    + eexists. by simplify_map_eq.
    + by simplify_map_eq.
  - rewrite (iadd_counter _ "losses" losses 1)
      by solve_counter.
    rewrite bind_lift_ok.
    rewrite (iadd_counter _ "total_score" total score)
      by solve_counter.
    rewrite bind_lift_ok.
    rewrite (getitem_counter _ "wins" wins), bind_lift_ok
      by solve_counter.
    rewrite (getitem_counter _ "games_played" (gp + 1)), bind_lift_ok
      by solve_counter.
    rewrite py_truediv_int, bind_lift_ok by done.
    cbv zeta.
    rewrite (getitem_counter _ "total_score" (total + score)), bind_lift_ok
      by solve_counter.
    rewrite (getitem_counter _ "games_played" (gp + 1)), bind_lift_ok
      by solve_counter.
    rewrite py_truediv_int, bind_lift_ok by done.
    eexists. split; [reflexivity|].
    unfold counters. rewrite !counter_insert. cbn [Z.b2z negb].
    repeat (case_decide; try done).
    rewrite E2. cbn [mbind option_bind].
    split_and!.
    + repeat (lia || f_equal).
    + eexists. by simplify_map_eq.
    + eexists. by simplify_map_eq.
    + by simplify_map_eq.
Qed.

Lemma counters_backfill (stats : gmap string pyval) (c : Z * Z * Z * Z) :
  counters stats = Some c → counters (backfill stats) = Some c.
Proof.
  unfold counters. intros H.
  destruct (counter stats "games_played") as [gp|] eqn:E1; [|done].
  destruct (counter stats "wins") as [wins|] eqn:E2; [|done].
  destruct (counter stats "losses") as [losses|] eqn:E3; [|done].
  destruct (counter stats "total_score") as [total|] eqn:E4; [|done].
  assert (∀ k n, counter stats k = Some n → counter (backfill stats) k = Some n)
    as Hk.
  { intros k n Hn%counter_lookup. apply counter_lookup.
    unfold backfill. by rewrite backfill_lookup, Hn. }
  by rewrite (Hk _ _ E1), (Hk _ _ E2), (Hk _ _ E3), (Hk _ _ E4).
Qed.

Lemma save_statistics_ok (stats : gmap string pyval) (w : World) :
  stats_write_error w = None →
  ∃ w', save_statistics stats w = (Ok (), w')
        ∧ stats_file w' = FileObject stats
        ∧ stats_write_error w' = None.
Proof.
  intros H. unfold save_statistics, mbind, M_bind, read. rewrite H.
  eexists. by split_and!.
Qed.

(** One call of [update_statistics] on integer totals, the file being
    writable. *)
Lemma update_statistics_step (now : string) (won : bool) (score : Z)
    (w : World) (gp wins losses total : Z) :
  stats_write_error w = None →
  persisted_counters w = Some (gp, wins, losses, total) →
  gp + 1 ≠ 0 →
  ∃ stats' w',
    update_statistics now won score w = (Ok stats', w')
    ∧ counters stats'
      = Some (gp + 1, wins + Z.b2z won, losses + Z.b2z (negb won),
              total + score)
    ∧ persisted_counters w' = counters stats'
    ∧ stats_write_error w' = None.
Proof.
  intros Hwe Hp Hgp.
  destruct (load_statistics_total w) as (stats & w1 & Hload & _ & Hwe1 & _).
  unfold persisted_counters in Hp. rewrite Hload in Hp. cbn [fst] in Hp.
  destruct (update_statistics_int now won score w w1 stats _ _ _ _
              Hload Hp Hgp) as (stats' & Hup & Hc & _).
  destruct (save_statistics_ok stats' w1) as (w' & Hsave & Hfile & Hwe');
    [congruence|].
  exists stats', w'. rewrite Hup.
  split_and!; try done.
  - by rewrite (bind_ok _ _ _ _ _ Hsave).
  - unfold persisted_counters, load_statistics.
    unfold mbind, M_bind, read. rewrite Hfile. cbn [fst].
    rewrite Hc. by apply counters_backfill.
Qed.

Lemma count_won_cons (won : bool) (o : bool * Z) (l : list (bool * Z)) :
  count_won won (o :: l)
  = (if decide (o.1 = won) then 1 else 0) + count_won won l.
Proof.
  unfold count_won. rewrite filter_cons.
  destruct (decide (o.1 = won)); [|done].
  rewrite length_cons. lia.
Qed.

Lemma count_won_perm (won : bool) (l1 l2 : list (bool * Z)) :
  l1 ≡ₚ l2 → count_won won l1 = count_won won l2.
Proof. intros H. unfold count_won. by rewrite H. Qed.

Lemma sum_scores_perm (l1 l2 : list (bool * Z)) :
  l1 ≡ₚ l2 → sum_scores l1 = sum_scores l2.
Proof.
  induction 1 as [|o l1 l2 _ IH|o1 o2 l|l1 l2 l3 _ IH1 _ IH2]; simpl; lia.
Qed.

(** The totals after a list of recorded games. *)
Lemma record_outcomes_totals (games : list (string * bool * Z)) (w : World)
    (gp wins losses total : Z) :
  stats_write_error w = None →
  persisted_counters w = Some (gp, wins, losses, total) →
  0 ≤ gp →
  ∃ w',
    record_outcomes games w = (Ok (), w')
    ∧ stats_write_error w' = None
    ∧ persisted_counters w'
      = Some (gp + Z.of_nat (length games),
              wins + count_won true (outcomes games),
              losses + count_won false (outcomes games),
              total + sum_scores (outcomes games)).
Proof.
  revert w gp wins losses total.
  induction games as [|[[now won] score] games IH];
    intros w gp wins losses total Hwe Hp Hgp.
  - exists w. split_and!; try done. rewrite Hp. unfold count_won. simpl.
    repeat (lia || f_equal).
  - destruct (update_statistics_step now won score w _ _ _ _ Hwe Hp)
      as (stats' & w1 & Hup & Hc & Hp1 & Hwe1); [lia|].
    rewrite Hc in Hp1.
    destruct (IH w1 _ _ _ _ Hwe1 Hp1) as (w' & Hrun & Hwe' & Hp'); [lia|].
    exists w'. cbn [record_outcomes].
    rewrite (bind_ok _ _ _ _ _ Hup), Hrun. split_and!; try done.
    rewrite Hp'. unfold outcomes. rewrite fmap_cons, !count_won_cons.
    unfold sum_scores. cbn [fst snd foldr].
    rewrite length_cons, Nat2Z.inj_succ.
    destruct won; cbn [Z.b2z negb]; repeat case_decide; try done;
      repeat (lia || f_equal).
Qed.


(** X2: [load_statistics] never raises.  Without a file it returns the
    defaults and prints nothing; on an unreadable or malformed file it
    returns the defaults and prints one warning; on a JSON object it
    returns that object with every missing default key filled in, every
    key that is present kept with its value, and nothing else added. *)
Theorem load_statistics_spec (w : World) :
  match stats_file w with
  | FileAbsent => load_statistics w = (Ok default_stats, w)
  | FileUnreadable e | FileMalformed e =>
      load_statistics w
      = (Ok default_stats,
         (print ("Warning: Could not load statistics (" +:+ e
                 +:+ "). Starting fresh.") w).2)
  | FileObject loaded =>
      ∃ stats,
        load_statistics w = (Ok stats, w)
        ∧ ∀ k, stats !! k = match loaded !! k with
                            | Some v => Some v
                            | None => default_stats !! k
                            end
  end.
Proof.
  unfold load_statistics, mbind, M_bind, read.
  destruct (stats_file w) as [|e|e|loaded] eqn:E; try reflexivity.
  eexists. split; [reflexivity|]. intros k. apply backfill_lookup.
Qed.

Lemma backfill_complete (stats : gmap string pyval) :
  dom default_stats ⊆ dom stats → backfill stats = stats.
Proof.
  intros Hdom. apply map_eq. intros k. unfold backfill.
  rewrite backfill_lookup. destruct (stats !! k) eqn:Ek; [done|].
  apply not_elem_of_dom. intros Hk%Hdom.
  by apply not_elem_of_dom in Ek.
Qed.





(** X5: a statistics file whose [games_played] is -1 makes
    [update_statistics] raise [ZeroDivisionError] when it computes the win
    rate; nothing is written and nothing is printed. *)
Theorem update_statistics_zero_division (now : string) (won : bool)
    (score : Z) (w : World) (loaded : gmap string pyval)
    (wins losses total : Z) :
  stats_file w = FileObject loaded →
  counters loaded = Some (-1, wins, losses, total) →
  update_statistics now won score w = (Raise ZeroDivisionError, w).
Proof.
  intros Hfile Hc.
  pose proof (load_statistics_spec w) as Hload. rewrite Hfile in Hload.
  destruct Hload as (stats & Hload & Hk).
  assert (counters stats = Some (-1, wins, losses, total)) as Hc'.
  { assert (stats = backfill loaded) as ->.
    { apply map_eq. intros k. rewrite Hk. unfold backfill.
      by rewrite backfill_lookup. }
    by apply counters_backfill. }
  clear Hk Hc. unfold counters in Hc'.
  destruct (counter stats "games_played") as [gp0|] eqn:E1; [|done].
  destruct (counter stats "wins") as [wins0|] eqn:E2; [|done].
  destruct (counter stats "losses") as [losses0|] eqn:E3; [|done].
  destruct (counter stats "total_score") as [total0|] eqn:E4; [|done].
  simpl in Hc'. injection Hc' as -> -> -> ->.
  unfold update_statistics.
  rewrite (bind_ok _ _ _ _ _ Hload).
  rewrite (iadd_counter _ _ _ 1 E1), bind_lift_ok.
  destruct won.
  - rewrite (iadd_counter _ "wins" wins 1) by solve_counter.
    rewrite bind_lift_ok.
    rewrite (iadd_counter _ "total_score" total score) by solve_counter.
    rewrite bind_lift_ok.
    rewrite (getitem_counter _ "wins" (wins + 1)), bind_lift_ok
      by solve_counter.
    rewrite (getitem_counter _ "games_played" (-1 + 1)), bind_lift_ok
      by solve_counter.
    reflexivity.
  - rewrite (iadd_counter _ "losses" losses 1) by solve_counter.
    rewrite bind_lift_ok.
    rewrite (iadd_counter _ "total_score" total score) by solve_counter.
    rewrite bind_lift_ok.
    rewrite (getitem_counter _ "wins" wins), bind_lift_ok by solve_counter.
    rewrite (getitem_counter _ "games_played" (-1 + 1)), bind_lift_ok
      by solve_counter.
    reflexivity.
Qed.

Lemma update_statistics_zero_division_witness :
  let loaded : gmap string pyval :=
    <["games_played" := PInt (-1)]> default_stats in
  let w := world_with (FileObject loaded) None in
  counters loaded = Some (-1, 0, 0, 0)
  ∧ update_statistics "2025-10-01T10:00:00" false 0 w
    = (Raise ZeroDivisionError, w).
Proof.
  cbv zeta. split; [reflexivity|].
  exact (update_statistics_zero_division "2025-10-01T10:00:00" false 0
           (world_with (FileObject (<["games_played" := PInt (-1)]>
                                      default_stats)) None)
           (<["games_played" := PInt (-1)]> default_stats) 0 0 0
           eq_refl eq_refl).
Defined.

(** X6: a statistics file whose [games_played] is a string, null, an
    array or an object makes [update_statistics] raise [TypeError] at the
    first increment; nothing is written and nothing is printed. *)
Theorem update_statistics_type_error (now : string) (won : bool)
    (score : Z) (w : World) (loaded : gmap string pyval) (v : pyval) :
  stats_file w = FileObject loaded →
  loaded !! "games_played" = Some v →
  as_num v = None →
  update_statistics now won score w = (Raise TypeError, w).
Proof.
  intros Hfile Hv Hnum.
  pose proof (load_statistics_spec w) as Hload. rewrite Hfile in Hload.
  destruct Hload as (stats & Hload & Hk).
  unfold update_statistics. rewrite (bind_ok _ _ _ _ _ Hload).
  unfold iadd, getitem. rewrite Hk, Hv. unfold py_add_int. by rewrite Hnum.
Qed.

Lemma update_statistics_type_error_witness :
  let loaded : gmap string pyval := {["games_played" := PStr "seven"]} in
  let w := world_with (FileObject loaded) None in
  loaded !! "games_played" = Some (PStr "seven")
  ∧ update_statistics "2025-10-01T10:00:00" true 10 w = (Raise TypeError, w).
Proof.
  cbv zeta. split; [reflexivity|].
  exact (update_statistics_type_error "2025-10-01T10:00:00" true 10
           (world_with (FileObject {["games_played" := PStr "seven"]}) None)
           {["games_played" := PStr "seven"]} (PStr "seven")
           eq_refl eq_refl eq_refl).
Defined.


(* ===================================================================== *)
(** * Further properties of the state machine *)
(* ===================================================================== *)

Lemma won_iff_all_characters_witness :
  let s := guess_letters ["t"; "A"; "c"]%char (sample_game 0) in
  started sample_words (sample_game 0)
  ∧ (game_won s = true ↔
     ∀ c, c ∈ pystr.chars (current_word s) → c ∈ correct_letters s)
  ∧ game_won s = true.
Proof.
  cbv zeta. split; [apply sample_started|].
  split; [|reflexivity].
  exact (won_iff_all_characters sample_words (sample_game 0)
           ["t"; "A"; "c"]%char (sample_started 0)).
Defined.

(** Letters that pass the input gate are alphabetic; so are the letters a
    matching whole-word guess marks. *)
Lemma guess_letters_correct_alphabetic (letters : list ascii)
    (s : GameState) :
  (∀ c, c ∈ letters → pystr.isalpha c = true) →
  (∀ c, c ∈ correct_letters s → pystr.isalpha c = true) →
  ∀ c, c ∈ correct_letters (guess_letters letters s) →
       pystr.isalpha c = true.
Proof.
  revert s. induction letters as [|l letters IH]; intros s Hl Hc; [done|].
  change (guess_letters (l :: letters) s)
    with (guess_letters letters (process_letter_guess l s).2).
  apply IH.
  - intros c Hin. apply Hl. by right.
  - assert (pystr.isalpha (pystr.lower_char l) = true) as Hlow.
    { assert (pystr.isalpha l = true) as Ha by (apply Hl; left).
      revert Ha. by destruct l as [[] [] [] [] [] [] [] []]. }
    destruct (decide (pystr.lower_char l ∈ guessed_letters s)) as [Hg|Hg].
    { by rewrite letter_repeated. }
    destruct (decide (pystr.lower_char l ∈ pystr.chars (current_word s)))
      as [Hin|Hin].
    + destruct (letter_correct l s Hg Hin)
        as (_ & _ & _ & _ & Ec & _).
      rewrite Ec. intros c [->%elem_of_singleton|?]%elem_of_union; auto.
    + destruct (letter_wrong l s Hg Hin)
        as (_ & _ & _ & _ & Ec & _).
      by rewrite Ec.
Qed.

(** X7: when the target word holds a character that is not a letter (a
    space, a hyphen), no sequence of alphabetic letter guesses sets
    [game_won]: such a word can only be won by a whole-word guess. *)
Theorem letters_never_win_non_alphabetic (words_dir : wordlist.WordsDir)
    (s0 : GameState) (letters : list ascii) (x : ascii) :
  started words_dir s0 →
  x ∈ pystr.chars (current_word s0) → pystr.isalpha x = false →
  (∀ c, c ∈ letters → pystr.isalpha c = true) →
  game_won (guess_letters letters s0) = false.
Proof.
  intros Hs Hx Hnot Hl.
  destruct (game_won (guess_letters letters s0)) eqn:Hwon; [|done].
  pose proof (won_iff_all_characters words_dir s0 letters Hs) as Hiff.
  cbv zeta in Hiff. pose proof (proj1 Hiff Hwon) as Hall. clear Hiff Hwon.
  assert (current_word (guess_letters letters s0) = current_word s0) as Ew.
  { destruct (guess_letters_won letters s0) as [Ew _]; [|done].
    apply started_fields in Hs as ([_ Hne] & _ & Hc & _ & _ & _ & Hw & _).
    rewrite Hw, Hc. split; [done|]. intros Hsub.
    destruct (current_word s0) as [|c w]; [done|].
    assert (c ∈ (∅ : gset ascii)) as []%elem_of_empty.
    apply Hsub, elem_of_list_to_set. left. }
  rewrite Ew in Hall. specialize (Hall x Hx).
  apply (guess_letters_correct_alphabetic letters s0 Hl) in Hall;
    [congruence|].
  apply started_fields in Hs as (_ & _ & -> & _).
  by intros c []%elem_of_empty.
Qed.

Lemma letters_never_win_non_alphabetic_witness :
  let letters := ["i"; "c"; "e"; "r"; "a"; "m"]%char in
  started sample_words (sample_game 2)
  ∧ " "%char ∈ pystr.chars (current_word (sample_game 2))
  ∧ pystr.isalpha " " = false
  ∧ game_won (guess_letters letters (sample_game 2)) = false.
Proof.
  cbv zeta. split; [apply sample_started|].
  assert (" "%char ∈ pystr.chars (current_word (sample_game 2))) as Hx
    by (apply (bool_decide_unpack _); vm_compute; exact I).
  split; [exact Hx|]. split; [reflexivity|].
  apply (letters_never_win_non_alphabetic sample_words (sample_game 2)
           ["i"; "c"; "e"; "r"; "a"; "m"]%char " " (sample_started 2) Hx
           eq_refl).
  apply Forall_forall. repeat constructor.
Defined.

(** ** What a step changes *)

Lemma letter_guess_growth (letter : ascii) (s : GameState) :
  let s' := (process_letter_guess letter s).2 in
  current_word s' = current_word s
  ∧ guessed_letters s ⊆ guessed_letters s'
  ∧ correct_letters s ⊆ correct_letters s'
  ∧ wrong_letters s ⊆ wrong_letters s'
  ∧ wrong_guesses s ≤ wrong_guesses s' ≤ wrong_guesses s + 1
  ∧ (game_won s = true → game_won s' = true)
  ∧ (game_lost s = true → game_lost s' = true)
  ∧ (s' = s
     ∨ ∃ entry, progress_trace s' = progress_trace s ++ [entry]
                ∧ guess_count s' = guess_count s + 1).
Proof.
  cbv zeta.
  destruct (decide (pystr.lower_char letter ∈ guessed_letters s)) as [Hg|Hg].
  { rewrite letter_repeated by done. cbn [snd].
    split_and!; try done; try lia. by left. }
  assert (∃ entry,
            progress_trace (process_letter_guess letter s).2
            = progress_trace s ++ [entry]) as Htrace.
  { unfold process_letter_guess. rewrite decide_False by done. cbv zeta.
    simpl_state.
    destruct (pystr.contains (pystr.lower_char letter) (current_word s)).
    - match goal with
      | |- context [is_word_complete ?x] => destruct (is_word_complete x)
      end; simpl_state; by eexists.
    - destruct (max_wrong_guesses s <=? wrong_guesses s + 1);
        simpl_state; by eexists. }
  destruct Htrace as [entry Htrace].
  destruct (decide (pystr.lower_char letter ∈ pystr.chars (current_word s)))
    as [Hin|Hin].
  - destruct (letter_correct letter s Hg Hin)
      as (_ & Ew & _ & Eg & Ec & Ewl & Ewg & Egc & El & Ewon).
    rewrite Ew, Eg, Ec, Ewl, Ewg, El, Ewon.
    split_and!; try done; try lia.
    + apply union_subseteq_r.
    + apply union_subseteq_r.
    + intros ->. by destruct (bool_decide _).
    + right. by exists entry.
  - destruct (letter_wrong letter s Hg Hin)
      as (_ & Ew & _ & Eg & Ec & Ewl & Ewg & Egc & Ewon & El).
    rewrite Ew, Eg, Ec, Ewl, Ewg, El, Ewon.
    split_and!; try done; try lia.
    + apply union_subseteq_r.
    + apply union_subseteq_r.
    + intros ->. by destruct (_ <=? _).
    + right. by exists entry.
Qed.

Lemma word_guess_growth (guess : string) (s : GameState) :
  let s' := (process_word_guess guess s).2 in
  current_word s' = current_word s
  ∧ guessed_letters s ⊆ guessed_letters s'
  ∧ correct_letters s ⊆ correct_letters s'
  ∧ wrong_letters s ⊆ wrong_letters s'
  ∧ wrong_guesses s ≤ wrong_guesses s' ≤ wrong_guesses s + 1
  ∧ (game_won s = true → game_won s' = true)
  ∧ (game_lost s = true → game_lost s' = true)
  ∧ ∃ entry, progress_trace s' = progress_trace s ++ [entry]
             ∧ guess_count s' = guess_count s + 1.
Proof.
  cbv zeta.
  destruct (decide (pystr.remove_spaces (pystr.lower guess)
                    = pystr.remove_spaces (current_word s))) as [E|E].
  - assert (∃ entry,
              progress_trace (process_word_guess guess s).2
              = progress_trace s ++ [entry]) as [entry Htrace].
    { unfold process_word_guess. cbv zeta. simpl_state.
      rewrite decide_True by done. simpl_state.
      destruct (mark_letters (pystr.chars (current_word s))
                  (set_guess_count (guess_count s + 1) s))
        as (_ & _ & _ & _ & _ & _ & _ & Et & _).
      rewrite Et. simpl_state. by eexists. }
    destruct (word_correct guess s E)
      as (_ & Ew & _ & Ewl & Ewg & Egc & Ewon & El & Hc & Hg).
    rewrite Ew, Ewl, Ewg, El, Ewon.
    split_and!; try done; try lia.
    + intros c Hin. apply Hg. by left.
    + intros c Hin. apply Hc. by left.
    + by exists entry.
  - assert (∃ entry,
              progress_trace (process_word_guess guess s).2
              = progress_trace s ++ [entry]) as [entry Htrace].
    { unfold process_word_guess. cbv zeta. simpl_state.
      rewrite decide_False by done. simpl_state.
      destruct (max_wrong_guesses s <=? wrong_guesses s + 1);
        simpl_state; by eexists. }
    destruct (word_wrong guess s E)
      as (_ & Ew & _ & Eg & Ec & Ewl & Ewg & Egc & Ewon & El).
    rewrite Ew, Eg, Ec, Ewl, Ewg, El, Ewon.
    split_and!; try done; try lia.
    + intros ->. by destruct (_ <=? _).
    + by exists entry.
Qed.

(** X8: a guess never undoes anything.  Across any number of calls of the
    two guess functions the target word stays the same, the three letter
    sets only grow, [wrong_guesses] and [guess_count] never decrease, a
    flag once set stays set, and the progress trace is only extended. *)
Theorem guesses_only_add (s s' : GameState) :
  rtc step s s' →
  current_word s' = current_word s
  ∧ guessed_letters s ⊆ guessed_letters s'
  ∧ correct_letters s ⊆ correct_letters s'
  ∧ wrong_letters s ⊆ wrong_letters s'
  ∧ wrong_guesses s ≤ wrong_guesses s'
  ∧ guess_count s ≤ guess_count s'
  ∧ (game_won s = true → game_won s' = true)
  ∧ (game_lost s = true → game_lost s' = true)
  ∧ progress_trace s `prefix_of` progress_trace s'.
Proof.
  induction 1 as [s|s s1 s' Hstep _ IH].
  { split_and!; done. }
  destruct IH as (Ew & Hg & Hc & Hwl & Hwg & Hgc & Hwon & Hl & Ht).
  assert (current_word s1 = current_word s
          ∧ guessed_letters s ⊆ guessed_letters s1
          ∧ correct_letters s ⊆ correct_letters s1
          ∧ wrong_letters s ⊆ wrong_letters s1
          ∧ wrong_guesses s ≤ wrong_guesses s1
          ∧ guess_count s ≤ guess_count s1
          ∧ (game_won s = true → game_won s1 = true)
          ∧ (game_lost s = true → game_lost s1 = true)
          ∧ progress_trace s `prefix_of` progress_trace s1)
    as (Ew1 & Hg1 & Hc1 & Hwl1 & Hwg1 & Hgc1 & Hwon1 & Hl1 & Ht1).
  { destruct Hstep as [letter s|guess s].
    - destruct (letter_guess_growth letter s)
        as (? & ? & ? & ? & ? & ? & ? & [->|(entry & Et & Egc)]);
        split_and!; try done; try lia.
      rewrite Et. by apply prefix_app_r.
    - destruct (word_guess_growth guess s)
        as (? & ? & ? & ? & ? & ? & ? & (entry & Et & Egc));
        split_and!; try done; try lia.
      rewrite Et. by apply prefix_app_r. }
  split_and!; first [congruence | lia | by etrans | auto].
Qed.

Lemma guesses_only_add_witness :
  let s := sample_game 0 in
  let s' := (process_word_guess "cot" (process_letter_guess "c" s).2).2 in
  rtc step s s'
  ∧ guessed_letters s ⊆ guessed_letters s'
  ∧ progress_trace s `prefix_of` progress_trace s'.
Proof.
  cbv zeta.
  assert (rtc step (sample_game 0)
            (process_word_guess "cot"
               (process_letter_guess "c" (sample_game 0)).2).2) as H.
  { eapply rtc_l; [apply (step_letter "c")|].
    eapply rtc_l; [apply (step_word "cot")|]. apply rtc_refl. }
  split; [exact H|].
  destruct (guesses_only_add _ _ H) as (_ & Hg & _ & _ & _ & _ & _ & _ & Ht).
  split; [exact Hg|exact Ht].
Defined.

(** ** The progress trace and the counters *)

Lemma step_trace_length (s s' : GameState) :
  step s s' →
  Z.of_nat (length (progress_trace s)) = guess_count s + 1 →
  Z.of_nat (length (progress_trace s')) = guess_count s' + 1.
Proof.
  intros [letter s0|guess s0] H.
  - destruct (letter_guess_growth letter s0)
      as (_ & _ & _ & _ & _ & _ & _ & [->|(entry & Et & Egc)]); [done|].
    rewrite Et, Egc, length_app. simpl. lia.
  - destruct (word_guess_growth guess s0)
      as (_ & _ & _ & _ & _ & _ & _ & (entry & Et & Egc)).
    rewrite Et, Egc, length_app. simpl. lia.
Qed.

(** X9: in every reachable state the progress trace holds one entry for
    the start of the game and one for each accepted guess: its length is
    [guess_count + 1] (a repeated letter adds neither). *)
Theorem trace_length (words_dir : wordlist.WordsDir) (s : GameState) :
  reachable words_dir s →
  Z.of_nat (length (progress_trace s)) = guess_count s + 1.
Proof.
  induction 1 as [s Hs|s s' _ IH Hstep].
  - destruct Hs as [prev category r n s' Hmax Hstart].
    unfold start_new_game in Hstart.
    destruct (wordlist.get_random_word _ category r) as [[word actual]|e];
      [|done].
    injection Hstart as <-. unfold reset_game_state. by simpl_state.
  - by eapply step_trace_length.
Qed.

Lemma trace_length_witness :
  let s := guess_letters ["c"; "x"; "C"]%char (sample_game 0) in
  reachable sample_words s
  ∧ Z.of_nat (length (progress_trace s)) = guess_count s + 1
  ∧ guess_count s = 2.
Proof.
  cbv zeta.
  assert (reachable sample_words
            (guess_letters ["c"; "x"; "C"]%char (sample_game 0))) as H.
  { eapply reach_step; [|apply (step_letter "C")].
    eapply reach_step; [|apply (step_letter "x")].
    eapply reach_step; [|apply (step_letter "c")].
    apply reach_start, sample_started. }
  split; [exact H|]. split; [exact (trace_length _ _ H)|reflexivity].
Defined.

(** ** Counters and letter sets *)

Lemma letter_guess_counts (letter : ascii) (s : GameState) :
  game_inv s →
  wrong_guesses s = Z.of_nat (size (wrong_letters s)) →
  guess_count s = Z.of_nat (size (guessed_letters s)) →
  let s' := (process_letter_guess letter s).2 in
  wrong_guesses s' = Z.of_nat (size (wrong_letters s'))
  ∧ guess_count s' = Z.of_nat (size (guessed_letters s')).
Proof.
  intros [Hu _ _ _ _ _] Hw Hg. cbv zeta.
  destruct (decide (pystr.lower_char letter ∈ guessed_letters s)) as [Hin|Hin].
  { by rewrite letter_repeated. }
  assert (pystr.lower_char letter ∉ wrong_letters s) as Hnw.
  { intros H. apply Hin. rewrite <- Hu. apply elem_of_union. by right. }
  destruct (decide (pystr.lower_char letter ∈ pystr.chars (current_word s)))
    as [Hc|Hc].
  - destruct (letter_correct letter s Hin Hc)
      as (_ & _ & _ & Eg & _ & Ewl & Ewg & Egc & _).
    rewrite Eg, Ewl, Ewg, Egc.
    rewrite size_union by (by apply disjoint_singleton_l).
    rewrite size_singleton. split; lia.
  - destruct (letter_wrong letter s Hin Hc)
      as (_ & _ & _ & Eg & _ & Ewl & Ewg & Egc & _).
    rewrite Eg, Ewl, Ewg, Egc.
    rewrite !size_union by (by apply disjoint_singleton_l).
    rewrite size_singleton. split; lia.
Qed.

(** X10: while only letters are guessed, [wrong_guesses] is the number of
    wrong letters and [guess_count] the number of guessed letters, however
    often a letter is repeated. *)
Theorem letter_counts (words_dir : wordlist.WordsDir) (s0 : GameState)
    (letters : list ascii) :
  started words_dir s0 →
  let s := guess_letters letters s0 in
  wrong_guesses s = Z.of_nat (size (wrong_letters s))
  ∧ guess_count s = Z.of_nat (size (guessed_letters s)).
Proof.
  intros Hs. cbv zeta.
  pose proof (started_inv _ _ Hs) as Hinv.
  apply started_fields in Hs
    as (_ & Hg & _ & Hwl & Hwg & _ & _ & _ & Hgc).
  assert (wrong_guesses s0 = Z.of_nat (size (wrong_letters s0))) as Hw0
    by (by rewrite Hwg, Hwl, size_empty).
  assert (guess_count s0 = Z.of_nat (size (guessed_letters s0))) as Hg0
    by (by rewrite Hgc, Hg, size_empty).
  clear Hg Hwl Hwg Hgc. revert s0 Hinv Hw0 Hg0.
  induction letters as [|l letters IH]; intros s0 Hinv Hw0 Hg0; [done|].
  change (guess_letters (l :: letters) s0)
    with (guess_letters letters (process_letter_guess l s0).2).
  destruct (letter_guess_counts l s0 Hinv Hw0 Hg0) as [Hw1 Hg1].
  apply IH; [by apply process_letter_guess_inv|done|done].
Qed.

Lemma letter_counts_witness :
  let s := guess_letters ["c"; "x"; "X"; "z"; "c"]%char (sample_game 0) in
  started sample_words (sample_game 0)
  ∧ wrong_guesses s = Z.of_nat (size (wrong_letters s))
  ∧ guess_count s = Z.of_nat (size (guessed_letters s))
  ∧ guess_count s = 3.
Proof.
  cbv zeta. split; [apply sample_started|].
  destruct (letter_counts sample_words (sample_game 0)
              ["c"; "x"; "X"; "z"; "c"]%char (sample_started 0)) as [H1 H2].
  split; [exact H1|]. split; [exact H2|reflexivity].
Defined.

Lemma step_wrong_nonneg (s s' : GameState) :
  step s s' → 0 ≤ wrong_guesses s → 0 ≤ wrong_guesses s'.
Proof.
  intros [letter s0|guess s0] H.
  - destruct (letter_guess_growth letter s0) as (_ & _ & _ & _ & ? & _). lia.
  - destruct (word_guess_growth guess s0) as (_ & _ & _ & _ & ? & _). lia.
Qed.

(** X11: under the loop of [play_game] the number of wrong guesses stays
    between 0 and 6, the game is lost exactly when it is 6, and the game
    is never both won and lost. *)
Theorem played_bounds (words_dir : wordlist.WordsDir) (s : GameState) :
  played words_dir s →
  0 ≤ wrong_guesses s ≤ 6
  ∧ (game_lost s = true ↔ wrong_guesses s = 6)
  ∧ ¬ (game_won s = true ∧ game_lost s = true).
Proof.
  intros Hp.
  assert (0 ≤ wrong_guesses s ≤ 6) as Hb.
  { induction Hp as [s Hs|s s' Hp IH [_ Hl] Hstep].
    - apply started_fields in Hs as (_ & _ & _ & _ & -> & _). lia.
    - apply played_reachable, reachable_inv in Hp as [_ _ _ _ Hlost _].
      assert (wrong_guesses s < 6).
      { destruct (decide (6 ≤ wrong_guesses s)) as [H6|]; [|lia].
        apply Hlost in H6. congruence. }
      destruct Hstep as [letter s0|guess s0].
      + destruct (letter_guess_growth letter s0)
          as (_ & _ & _ & _ & ? & _). lia.
      + destruct (word_guess_growth guess s0)
          as (_ & _ & _ & _ & ? & _). lia. }
  split; [done|]. split.
  - apply played_reachable, reachable_inv in Hp as [_ _ _ _ Hlost _].
    rewrite Hlost. lia.
  - intros [Hw Hl]. apply played_exclusive in Hp. by rewrite Hw, Hl in Hp.
Qed.

Lemma played_bounds_witness :
  let s := guess_letters ["x"; "y"]%char (sample_game 0) in
  played sample_words s ∧ 0 ≤ wrong_guesses s ≤ 6.
Proof.
  cbv zeta.
  assert (played sample_words
            (guess_letters ["x"; "y"]%char (sample_game 0))) as H.
  { apply (played_step sample_words
             (guess_letters ["x"]%char (sample_game 0)));
      [|split; reflexivity|apply (step_letter "y")].
    apply (played_step sample_words (sample_game 0));
      [|split; reflexivity|apply (step_letter "x")].
    apply played_start, sample_started. }
  split; [exact H|]. exact (proj1 (played_bounds _ _ H)).
Defined.

(** X12: when the loop of [play_game] has run a started game to its end,
    exactly one of [game_won] and [game_lost] is set, and the score
    [end_game] computes is [max(10 * len(word) - 5 * wrong_guesses, 10)]
    for a won game and 0 for a lost one. *)
Theorem play_game_end_score (words_dir : wordlist.WordsDir)
    (inputs : list user_input) (s0 s : GameState) :
  started words_dir s0 →
  play_game inputs s0 = (Ended, s) →
  game_lost s = negb (game_won s)
  ∧ end_game_score s
    = if game_won s
      then Z.max (Z.of_nat (String.length (current_word s)) * 10
                  - wrong_guesses s * 5) 10
      else 0.
Proof.
  intros Hs Hplay. split.
  - apply (play_game_ended inputs s0 s); [|done].
    apply started_fields in Hs as (_ & _ & _ & _ & _ & _ & -> & _). done.
  - by eapply end_game_score_spec.
Qed.

Lemma play_game_end_score_witness :
  let inputs := [Letter "c"; Letter "x"; Letter "a"; Letter "t"] in
  let s := (play_game inputs (sample_game 0)).2 in
  started sample_words (sample_game 0)
  ∧ play_game inputs (sample_game 0) = (Ended, s)
  ∧ game_won s = true
  ∧ end_game_score s = 25.
Proof.
  cbv zeta. split; [apply sample_started|].
  assert (play_game [Letter "c"; Letter "x"; Letter "a"; Letter "t"]
            (sample_game 0)
          = (Ended,
             (play_game [Letter "c"; Letter "x"; Letter "a"; Letter "t"]
                (sample_game 0)).2)) as H by (by vm_compute).
  split; [exact H|]. split; [by vm_compute|].
  destruct (play_game_end_score sample_words _ _ _ (sample_started 0) H)
    as [_ E].
  rewrite E. by vm_compute.
Defined.

(* ===================================================================== *)
(** * Joined strings: the progress display and the game log *)
(* ===================================================================== *)

Lemma chars_app (a b : string) :
  pystr.chars (a +:+ b) = pystr.chars a ++ pystr.chars b.
Proof.
  induction a as [|c a IH]; [done|].
  change (pystr.chars (String c a +:+ b)) with (c :: pystr.chars (a +:+ b)).
  by rewrite IH.
Qed.

Lemma join_cons (sep x y : string) (l : list string) :
  pystr.join sep (x :: y :: l) = x +:+ sep +:+ pystr.join sep (y :: l).
Proof. done. Qed.

Lemma elem_of_chars_join (sep : string) (l : list string) (c : ascii) :
  c ∈ pystr.chars (pystr.join sep l) ↔
  (c ∈ pystr.chars sep ∧ (2 ≤ length l)%nat)
  ∨ ∃ e, e ∈ l ∧ c ∈ pystr.chars e.
Proof.
  induction l as [|x [|y l] IH].
  - simpl. split; [by intros []%elem_of_nil|].
    intros [[_ ?]|(e & []%elem_of_nil & _)]. simpl in *. lia.
  - change (pystr.join sep [x]) with x. split.
    + intros H. right. exists x. split; [left|done].
    + intros [[_ ?]|(e & ->%list_elem_of_singleton & H)]; [simpl in *; lia|done].
  - rewrite join_cons, !chars_app, !elem_of_app, IH. split.
    + intros [H|[H|[[H ?]|(e & He & H)]]].
      * right. exists x. split; [left|done].
      * left. split; [done|]. simpl. lia.
      * left. split; [done|]. simpl. lia.
      * right. exists e. split; [by right|done].
    + intros [[H _]|(e & [->|He]%elem_of_cons & H)].
      * right. by left.
      * by left.
      * right. right. right. by exists e.
Qed.

Lemma length_chars_join_cells (cells : list string) :
  (∀ e, e ∈ cells → length (pystr.chars e) = 1%nat) →
  length (pystr.chars (pystr.join " " cells))
  = (2 * length cells - 1)%nat.
Proof.
  induction cells as [|x [|y l] IH]; intros H.
  - done.
  - change (pystr.join " " [x]) with x. rewrite H by left. done.
  - rewrite join_cons, !chars_app, !length_app, IH.
    + rewrite H by left. simpl. lia.
    + intros e He. apply H. by right.
Qed.

(** X13: the progress display has one cell per character of the word,
    separated by single spaces; when the word itself holds no underscore,
    the display shows no underscore exactly when [is_word_complete] holds,
    that is when every character of the word is in [correct_letters]. *)
Theorem progress_display (s : GameState) :
  length (pystr.chars (get_word_progress s))
  = (2 * length (pystr.chars (current_word s)) - 1)%nat
  ∧ ("_"%char ∉ pystr.chars (current_word s) →
     (is_word_complete s = true ↔
      "_"%char ∉ pystr.chars (get_word_progress s))).
Proof.
  unfold get_word_progress. split.
  - rewrite length_chars_join_cells, length_fmap; [done|].
    intros e (c & -> & _)%list_elem_of_fmap. by destruct (decide _).
  - intros Hno. unfold is_word_complete. rewrite bool_decide_eq_true.
    rewrite elem_of_chars_join. split.
    + intros Hsub [[H _]|(e & (c & -> & Hc)%list_elem_of_fmap & H)].
      * apply list_elem_of_singleton in H. done.
      * rewrite decide_True in H
          by (by apply Hsub, elem_of_list_to_set).
        apply list_elem_of_singleton in H. by subst c.
    + intros Hnone c Hc%elem_of_list_to_set.
      destruct (decide (c ∈ correct_letters s)) as [|Hnc]; [done|].
      destruct Hnone. right. exists "_". split.
      * apply list_elem_of_fmap. exists c. by rewrite decide_False.
      * by left.
Qed.

Lemma progress_display_witness :
  let s := guess_letters ["c"; "a"]%char (sample_game 0) in
  ("_"%char ∉ pystr.chars (current_word s))
  ∧ (is_word_complete s = true ↔
     "_"%char ∉ pystr.chars (get_word_progress s))
  ∧ get_word_progress s = "c a _".
Proof.
  cbv zeta.
  assert ("_"%char ∉ pystr.chars
            (current_word (guess_letters ["c"; "a"]%char (sample_game 0))))
    as H by (apply (bool_decide_unpack _); vm_compute; exact I).
  split; [exact H|]. split; [|by vm_compute].
  exact (proj2 (progress_display _) H).
Defined.

(** ** The game log *)

Lemma log_separator_chars :
  pystr.chars log_separator = ["\"; "n"]%char
  ∧ line_feed ∉ pystr.chars log_separator.
Proof.
  split; [done|]. apply (bool_decide_unpack _). by vm_compute.
Qed.



(** A statistics record without the key [win_rate], or with a string
    there, makes [save_game_log] raise while it builds the entries
    ([KeyError], respectively [ValueError]); nothing is written or
    printed. *)
Theorem save_game_log_bad_stats
    (float_repr float_fixed2 : float → string) (json_repr : string → string)
    (set_order : gset ascii → list ascii)
    (timestamp : string) (s : GameState) (game_number : Z) (won : bool)
    (score : Z) (stats : gmap string pyval) (w : World) :
  is_Some (stats !! "total_score") → is_Some (stats !! "games_played") →
  is_Some (stats !! "wins") → is_Some (stats !! "losses") →
  (stats !! "win_rate" = None →
   save_game_log float_repr float_fixed2 json_repr set_order
     timestamp s game_number won score stats w
   = (Raise (KeyError "win_rate"), w))
  ∧ (∀ text, stats !! "win_rate" = Some (PStr text) →
     save_game_log float_repr float_fixed2 json_repr set_order
       timestamp s game_number won score stats w
     = (Raise (ValueError
                 "Unknown format code 'f' for object of type 'str'"), w)).
Proof.
  intros [v1 H1] [v2 H2] [v3 H3] [v4 H4].
  split; [intros H5|intros text H5];
    unfold save_game_log, log_entries, getitem;
    by rewrite H1, H2, H3, H4, H5.
Qed.



Lemma save_game_log_bad_stats_witness :
  let stats : gmap string pyval := delete "win_rate" default_stats in
  let w := world_with FileAbsent None in
  is_Some (stats !! "total_score")
  ∧ stats !! "win_rate" = None
  ∧ save_game_log sample_float_text sample_float_text sample_json_text
      sample_set_order "2025-10-01 10:00:00" (sample_game 0) 1 false 0
      stats w = (Raise (KeyError "win_rate"), w).
Proof.
  cbv zeta.
  assert (is_Some ((delete "win_rate" default_stats : gmap string pyval)
                   !! "total_score")) as H1 by (by eexists).
  assert (is_Some ((delete "win_rate" default_stats : gmap string pyval)
                   !! "games_played")) as H2 by (by eexists).
  assert (is_Some ((delete "win_rate" default_stats : gmap string pyval)
                   !! "wins")) as H3 by (by eexists).
  assert (is_Some ((delete "win_rate" default_stats : gmap string pyval)
                   !! "losses")) as H4 by (by eexists).
  split; [exact H1|]. split; [reflexivity|].
  exact (proj1 (save_game_log_bad_stats sample_float_text sample_float_text
                  sample_json_text sample_set_order "2025-10-01 10:00:00"
                  (sample_game 0) 1 false 0
                  (delete "win_rate" default_stats)
                  (world_with FileAbsent None) H1 H2 H3 H4) eq_refl).
Defined.

Lemma persisted_counters_file (w w' : World) :
  stats_file w' = stats_file w →
  persisted_counters w' = persisted_counters w.
Proof.
  intros H. unfold persisted_counters, load_statistics, mbind, M_bind, read.
  rewrite H. by destruct (stats_file w).
Qed.



(* ===================================================================== *)
(** * The word lists *)
(* ===================================================================== *)

(** X17: [get_random_word] returns a word of the list it was asked for:
    without a category a word of [_all_words] together with the category
    [determine_category] finds for it, with a category a word of that
    category's list together with the category name in lower case.  It
    raises [ValueError], and nothing else, exactly when that list is
    missing or empty. *)
Theorem get_random_word_spec (g : wordlist.Words) (category : option string)
    (r : nat) :
  match wordlist.get_random_word g category r with
  | Ok (word, actual) =>
      match category with
      | None =>
          word ∈ wordlist._all_words g
          ∧ actual = wordlist.determine_category g word
      | Some c =>
          actual = pystr.lower c
          ∧ ∃ words,
              wordlist.dict_get (pystr.lower c) (wordlist._category_words g)
              = Some words
              ∧ word ∈ words
      end
  | Raise e =>
      (∃ msg, e = ValueError msg)
      ∧ match category with
        | None => wordlist._all_words g = []
        | Some c =>
            wordlist.dict_get (pystr.lower c) (wordlist._category_words g)
            = None
            ∨ wordlist.dict_get (pystr.lower c) (wordlist._category_words g)
              = Some []
        end
  end.
Proof.
  unfold wordlist.get_random_word. destruct category as [c|].
  - destruct (wordlist.dict_get _ _) as [[|w ws]|] eqn:E.
    + split; [by eexists|by right].
    + split; [done|]. exists (w :: ws). split; [done|apply choice_elem].
    + split; [by eexists|by left].
  - destruct (wordlist._all_words g) as [|w ws] eqn:E.
    + split; [by eexists|done].
    + split; [apply choice_elem|done].
Qed.

(** X18: [get_random_word] succeeds exactly when [get_word_count] for the
    same request is positive. *)
Theorem word_count_positive (g : wordlist.Words) (category : option string)
    (r : nat) :
  0 < get_word_count g category ↔
  ∃ word actual, wordlist.get_random_word g category r = Ok (word, actual).
Proof.
  unfold get_word_count, wordlist.get_random_word.
  destruct category as [c|].
  - destruct (wordlist.dict_get _ _) as [[|w ws]|]; simpl; split;
      try lia; try (intros (? & ? & ?); done); by eexists _, _.
  - destruct (wordlist._all_words g) as [|w ws]; simpl; split;
      try lia; try (intros (? & ? & ?); done); by eexists _, _.
Qed.

Lemma determine_category_in_spec (word : string)
    (d : list (string * list string)) :
  (wordlist.determine_category_in word d = "mixed"
   ∧ ∀ k ws, (k, ws) ∈ d → word ∉ ws)
  ∨ ∃ ws, (wordlist.determine_category_in word d, ws) ∈ d ∧ word ∈ ws.
Proof.
  induction d as [|[k ws] d IH]; simpl.
  - left. split; [done|]. by intros k ws []%elem_of_nil.
  - destruct (decide (word ∈ ws)) as [Hin|Hin].
    + right. exists ws. split; [left|done].
    + destruct IH as [[E Hnone]|(ws' & Hk & Hw)].
      * left. split; [done|].
        intros k' ws' [[= -> ->]|H]%elem_of_cons; [done|by eapply Hnone].
      * right. exists ws'. split; [by right|done].
Qed.

(** X19: [determine_category] answers with a category whose list holds
    the word when there is one, and with "mixed" when no category list
    holds it. *)
Theorem determine_category_spec (g : wordlist.Words) (word : string) :
  (wordlist.determine_category g word = "mixed"
   ∧ ∀ k ws, (k, ws) ∈ wordlist._category_words g → word ∉ ws)
  ∨ ∃ ws, (wordlist.determine_category g word, ws)
            ∈ wordlist._category_words g
          ∧ word ∈ ws.
Proof. apply determine_category_in_spec. Qed.

(** ** Stored words are normalised *)

Lemma isspace_lower (c : ascii) :
  pystr.isspace (pystr.lower_char c) = pystr.isspace c.
Proof. by destruct c as [[] [] [] [] [] [] [] []]. Qed.

Lemma lstrip_lower (s : string) :
  pystr.lstrip (pystr.lower s) = pystr.lower (pystr.lstrip s).
Proof.
  induction s as [|c s IH]; [done|].
  cbn [pystr.lower pystr.map_chars pystr.lstrip].
  rewrite isspace_lower. by destruct (pystr.isspace c).
Qed.

Lemma rstrip_lower (s : string) :
  pystr.rstrip (pystr.lower s) = pystr.lower (pystr.rstrip s).
Proof.
  induction s as [|c s IH]; [done|].
  cbn [pystr.lower pystr.map_chars pystr.rstrip].
  fold (pystr.lower s). rewrite IH, isspace_lower.
  destruct (pystr.rstrip s) as [|d r]; [|done].
  by destruct (pystr.isspace c).
Qed.

Lemma rstrip_idem (s : string) :
  pystr.rstrip (pystr.rstrip s) = pystr.rstrip s.
Proof.
  induction s as [|c s IH]; [done|].
  cbn [pystr.rstrip]. destruct (pystr.rstrip s) as [|d r] eqn:E.
  - destruct (pystr.isspace c) eqn:Hc; [done|].
    cbn [pystr.rstrip]. by rewrite Hc.
  - change (pystr.rstrip (String c (String d r)))
      with (match pystr.rstrip (String d r) with
            | EmptyString =>
                if pystr.isspace c then EmptyString else String c EmptyString
            | r' => String c r'
            end).
    by rewrite IH.
Qed.

Lemma lstrip_rstrip_lstrip (s : string) :
  pystr.lstrip (pystr.rstrip (pystr.lstrip s))
  = pystr.rstrip (pystr.lstrip s).
Proof.
  induction s as [|c s IH]; [done|].
  cbn [pystr.lstrip]. destruct (pystr.isspace c) eqn:Hc; [done|].
  cbn [pystr.rstrip]. destruct (pystr.rstrip s) as [|d r].
  - rewrite Hc. cbn [pystr.lstrip]. by rewrite Hc.
  - cbn [pystr.lstrip]. by rewrite Hc.
Qed.

Lemma strip_idem (s : string) : pystr.strip (pystr.strip s) = pystr.strip s.
Proof.
  unfold pystr.strip. by rewrite lstrip_rstrip_lstrip, rstrip_idem.
Qed.

Lemma strip_lower (s : string) :
  pystr.strip (pystr.lower s) = pystr.lower (pystr.strip s).
Proof. unfold pystr.strip. by rewrite lstrip_lower, rstrip_lower. Qed.

(** X20: every word [read_words] keeps is trimmed, in lower case and not
    empty, and reading an already normalised list changes nothing. *)
Theorem read_words_normalised (lines : list string) :
  (∀ w, w ∈ wordlist.read_words lines →
        pystr.strip w = w ∧ pystr.lower w = w ∧ w ≠ "")
  ∧ wordlist.read_words (wordlist.read_words lines)
    = wordlist.read_words lines.
Proof.
  assert (∀ w, w ∈ wordlist.read_words lines →
               pystr.strip w = w ∧ pystr.lower w = w ∧ w ≠ "") as Hnorm.
  { intros w Hw. destruct (read_words_stored lines w Hw) as [Hl Hne].
    split; [|done]. unfold wordlist.read_words in Hw.
    apply list_elem_of_fmap in Hw as (l & -> & _).
    by rewrite strip_lower, strip_idem. }
  split; [done|].
  induction (wordlist.read_words lines) as [|w ws IH]; [done|].
  unfold wordlist.read_words in *. rewrite filter_cons.
  destruct (Hnorm w) as (Hs & Hl & Hne); [left|].
  rewrite decide_True by (by rewrite Hs).
  rewrite fmap_cons, Hs, Hl. f_equal. apply IH.
  intros w' Hw'. apply Hnorm. by right.
Qed.

(* ===================================================================== *)
(** * Stages and game numbers *)
(* ===================================================================== *)

Lemma get_hangman_stage_range (n : Z) :
  match get_hangman_stage n with
  | Stage _ => 0 ≤ n ≤ 6
  | StageValueError _ => n < 0 ∨ 6 < n
  | StageIndexError => False
  end.
Proof.
  unfold get_hangman_stage.
  destruct (0 <=? n) eqn:H0; destruct (n <=? 6) eqn:H6; cbn [negb andb];
    try (apply Z.leb_gt in H0); try (apply Z.leb_gt in H6);
    try (right; lia); try (left; lia).
  apply Z.leb_le in H0, H6.
  assert (n = 0 ∨ n = 1 ∨ n = 2 ∨ n = 3 ∨ n = 4 ∨ n = 5 ∨ n = 6)
    as [->|[->|[->|[->|[->|[->| ->]]]]]] by lia; simpl; lia.
Qed.

(** X21: at every turn of [play_game] the stage the screen asks for
    exists: [get_hangman_stage (wrong_guesses)] returns a drawing and
    raises neither its [ValueError] nor an [IndexError]; and
    [ascii_art.is_game_over] agrees with the engine's [game_lost]. *)
Theorem stage_during_play (words_dir : wordlist.WordsDir) (s : GameState) :
  played words_dir s →
  (∃ art, get_hangman_stage (wrong_guesses s) = Stage art)
  ∧ ascii_art.is_game_over (wrong_guesses s) = game_lost s.
Proof.
  intros Hp. destruct (played_bounds _ _ Hp) as (Hb & Hl & _). split.
  - pose proof (get_hangman_stage_range (wrong_guesses s)) as H.
    destruct (get_hangman_stage (wrong_guesses s)) as [art|msg|];
      [by eexists|lia|done].
  - unfold ascii_art.is_game_over.
    change ascii_art.get_max_wrong_guesses with 6.
    destruct (game_lost s) eqn:E.
    + apply Z.leb_le. destruct Hl as [Hl _]. rewrite Hl; [lia|done].
    + apply Z.leb_gt. destruct (decide (wrong_guesses s = 6)) as [H6|]; [|lia].
      apply Hl in H6. congruence.
Qed.

Lemma stage_during_play_witness :
  let s := guess_letters ["x"; "y"]%char (sample_game 0) in
  played sample_words s
  ∧ (∃ art, get_hangman_stage (wrong_guesses s) = Stage art)
  ∧ ascii_art.is_game_over (wrong_guesses s) = game_lost s.
Proof.
  cbv zeta.
  assert (played sample_words
            (guess_letters ["x"; "y"]%char (sample_game 0))) as H.
  { apply (played_step sample_words
             (guess_letters ["x"]%char (sample_game 0)));
      [|split; reflexivity|apply (step_letter "y")].
    apply (played_step sample_words (sample_game 0));
      [|split; reflexivity|apply (step_letter "x")].
    apply played_start, sample_started. }
  split; [exact H|]. exact (stage_during_play _ _ H).
Defined.

(** ** Game numbers *)

Lemma mapM_ok {A B} (f : A → result B) (g : A → B) (l : list A) :
  (∀ x, x ∈ l → f x = Ok (g x)) → mapM f l = Ok (g <$> l).
Proof.
  induction l as [|x l IH]; intros H; [done|].
  cbn [mapM]. rewrite (H x) by left.
  cbn [mbind result_bind]. rewrite IH by (intros y Hy; apply H; by right).
  done.
Qed.

Lemma remove_game_digits (s : string) :
  forallb isdigit_char (pystr.chars s) = true → remove_game s = s.
Proof.
  induction s as [|c s IH]; [done|].
  change (pystr.chars (String c s)) with (c :: pystr.chars s).
  cbn [forallb]. intros [Hc Hs]%andb_true_iff.
  specialize (IH Hs). revert Hc.
  destruct c as [[] [] [] [] [] [] [] []]; try discriminate; intros _;
    cbn [remove_game]; by rewrite IH.
Qed.

Lemma int_of_digits_nonneg (s : string) (n : Z) :
  int_of_digits s = Some n → 0 ≤ n.
Proof.
  unfold int_of_digits. destruct (isdigit s) eqn:E; [|done].
  intros [= <-].
  assert (forallb isdigit_char (pystr.chars s) = true) as Hd
    by (by destruct s).
  clear E.
  assert (∀ l acc, 0 ≤ acc → forallb isdigit_char l = true →
            0 ≤ foldl (λ acc c, acc * 10 + (Z.of_N (pystr.code c) - 48))
                  acc l) as Hfold.
  { induction l as [|c l IH]; intros acc Hacc Hl; [done|].
    cbn [forallb] in Hl. apply andb_true_iff in Hl as [Hc Hl].
    cbn [foldl]. apply IH; [|done].
    unfold isdigit_char in Hc.
    apply andb_true_iff in Hc as [H1%N.leb_le H2%N.leb_le]. lia. }
  by apply Hfold.
Qed.

Lemma max_default_upper (l : list Z) (x : Z) :
  x ∈ l → x ≤ max_default l.
Proof.
  assert (∀ l a, a ≤ foldl Z.max a l ∧ ∀ x, x ∈ l → x ≤ foldl Z.max a l)
    as Hfold.
  { clear. induction l as [|y l IH]; intros a.
    - split; [done|]. by intros x []%elem_of_nil.
    - cbn [foldl]. destruct (IH (a `max` y)) as [H1 H2]. split; [lia|].
      intros x [->|Hx]%elem_of_cons; [lia|by apply H2]. }
  destruct l as [|a l]; [by intros []%elem_of_nil|].
  cbn [max_default]. destruct (Hfold l a) as [H1 H2].
  intros [->|Hx]%elem_of_cons; [done|by apply H2].
Qed.

Lemma max_default_nonneg (l : list Z) :
  (∀ x, x ∈ l → 0 ≤ x) → 0 ≤ max_default l.
Proof.
  destruct l as [|a l]; [done|]. intros H.
  etrans; [apply (H a); left|]. apply max_default_upper. left.
Qed.

Lemma game_entry_digits (name : string) :
  startswith "game" name = true → isdigit (slice_from 4 name) = true →
  ∃ digits, name = "game" +:+ digits ∧ isdigit digits = true.
Proof.
  unfold startswith.
  destruct name as [|c1 [|c2 [|c3 [|c4 digits]]]]; try done;
    cbn [String.prefix].
  destruct (ascii_dec "g" c1) as [<-|]; [|done].
  destruct (ascii_dec "a" c2) as [<-|]; [|done].
  destruct (ascii_dec "m" c3) as [<-|]; [|done].
  destruct (ascii_dec "e" c4) as [<-|]; [|done].
  intros _ H. by exists digits.
Qed.

Lemma startswith_game (digits : string) :
  startswith "game" ("game" +:+ digits) = true.
Proof. unfold startswith. cbn. by destruct digits. Qed.

Lemma game_entry_number (digits : string) :
  isdigit digits = true →
  int_of_digits (remove_game ("game" +:+ digits)) = int_of_digits digits.
Proof.
  intros H. change (remove_game ("game" +:+ digits)) with (remove_game digits).
  rewrite remove_game_digits; [done|]. by destruct digits.
Qed.


(* ===================================================================== *)
(** * The input gate and the console loop *)
(* ===================================================================== *)

Lemma lower_single (s : string) (c : ascii) :
  pystr.lower s = String c EmptyString → pystr.lower_char c = c.
Proof.
  destruct s as [|c0 [|? ?]]; try done. intros [= <-]. apply lower_char_idem.
Qed.

(** X23: [get_user_guess] consumes events and never returns anything but
    'quit', 'guess' or one lower-case letter; that letter is never q,
    because q, like quit and exit, quits. *)
Theorem get_user_guess_gate (input : list console_event) :
  (length (get_user_guess input).2 ≤ length input)%nat
  ∧ match (get_user_guess input).1 with
    | CmdLetter c =>
        gate_valid (Letter c)
        ∧ (length (get_user_guess input).2 < length input)%nat
    | CmdGuess => (length (get_user_guess input).2 < length input)%nat
    | CmdQuit => True
    end.
Proof.
  induction input as [|[text|] input IH]; cbn [get_user_guess].
  - done.
  - cbv zeta. destruct (decide (_ ∈ quit_words)) as [Hq|Hq].
    { cbn. split; [lia|done]. }
    destruct (decide (_ = "guess")) as [Hg|Hg].
    { cbn. split; lia. }
    destruct IH as [IH1 IH2].
    assert ((length (get_user_guess input).2 ≤ length (TypedLine text :: input))%nat
            ∧ match (get_user_guess input).1 with
              | CmdLetter c =>
                  gate_valid (Letter c)
                  ∧ (length (get_user_guess input).2
                     < length (TypedLine text :: input))%nat
              | CmdGuess =>
                  (length (get_user_guess input).2
                   < length (TypedLine text :: input))%nat
              | CmdQuit => True
              end) as Hrest.
    { split; [cbn; lia|]. revert IH2.
      destruct ((get_user_guess input).1); cbn; intros IH2; [done|lia|].
      split; [tauto|lia]. }
    destruct (pystr.lower (pystr.strip text)) as [|c [|? ?]] eqn:E;
      try exact Hrest.
    destruct (pystr.isalpha c) eqn:Ha; [|exact Hrest].
    cbn. split; [lia|]. split; [|lia]. split_and!; try done.
    + by eapply lower_single.
    + intros ->. apply Hq. unfold quit_words. right. left.
  - cbn. split; [lia|done].
Qed.

Lemma lower_strip_fixed (text : string) :
  pystr.lower (pystr.lower (pystr.strip text))
  = pystr.lower (pystr.strip text).
Proof. apply lower_idem. Qed.

(** X24: [get_full_word_guess] consumes events and returns 'quit' or a
    lower-case word made of letters and spaces with at least one letter,
    which is none of quit, q and exit. *)
Theorem get_full_word_guess_gate (input : list console_event) :
  (length (get_full_word_guess input).2 ≤ length input)%nat
  ∧ ((get_full_word_guess input).1 = "quit"
     ∨ gate_valid (Word (get_full_word_guess input).1)
       ∧ (length (get_full_word_guess input).2 < length input)%nat).
Proof.
  induction input as [|[text|] input IH]; cbn [get_full_word_guess].
  - split; [done|by left].
  - cbv zeta. destruct (decide (_ ∈ quit_words)) as [Hq|Hq].
    { cbn. split; [lia|by left]. }
    destruct (negb _ && str_isalpha _) eqn:Ha.
    + apply andb_true_iff in Ha as [_ Ha].
      cbn. split; [lia|]. right. split; [|lia].
      split_and!; [done|apply lower_idem|done].
    + destruct IH as [IH1 [IH2|[IH2 IH3]]]; cbn; (split; [lia|]).
      * by left.
      * right. split; [done|lia].
  - cbn. split; [lia|by left].
Qed.

(** X25: the console loop of [play_game] always comes to an end: with
    more fuel than there are events it returns, with the game ended or
    quit (at the end of the input, [input] raises [EOFError], which
    quits). *)
Theorem play_game_console_returns (fuel : nat) (input : list console_event)
    (s : GameState) :
  (length input < fuel)%nat →
  ∃ status s',
    play_game_console fuel input s = Some (status, s')
    ∧ (status = Ended ∨ status = QuitGame).
Proof.
  revert input s. induction fuel as [|fuel IH]; intros input s Hf; [lia|].
  cbn [play_game_console].
  destruct (negb (game_won s) && negb (game_lost s)); [|by eauto].
  destruct (get_user_guess_gate input) as [Hlen Hcmd].
  destruct (get_user_guess input) as [[| |c] rest]; cbn [fst snd] in *.
  - by eauto.
  - destruct (get_full_word_guess_gate rest) as [Hlen' _].
    destruct (get_full_word_guess rest) as [word_guess rest'];
      cbn [fst snd] in *.
    destruct (decide (word_guess = "quit")); [by eauto|].
    apply IH. lia.
  - apply IH. lia.
Qed.

Lemma play_game_console_returns_witness :
  let input := [TypedLine "c"; TypedLine "guess"; TypedLine "dog";
                TypedLine "guess"; TypedLine "CAT"] in
  (length input < 6)%nat
  ∧ ∃ s', play_game_console 6 input (sample_game 0) = Some (Ended, s')
          ∧ game_won s' = true.
Proof.
  cbv zeta. split; [simpl; lia|].
  destruct (play_game_console_returns 6
              [TypedLine "c"; TypedLine "guess"; TypedLine "dog";
               TypedLine "guess"; TypedLine "CAT"] (sample_game 0))
    as (status & s' & H & _); [simpl; lia|].
  exists s'. revert H. vm_compute. intros [= <- <-]. by split.
Defined.



Lemma play_game_played (words_dir : wordlist.WordsDir)
    (inputs : list user_input) (s s' : GameState) (status : play_status) :
  played words_dir s → play_game inputs s = (status, s') →
  played words_dir s'.
Proof.
  revert s. induction inputs as [|i inputs IH]; intros s Hp; cbn [play_game];
    destruct (negb (game_won s) && negb (game_lost s)) eqn:G;
    try (by intros [= <- <-]).
  apply play_game_guard in G.
  destruct i as [c|guess|]; [| |by intros [= <- <-]].
  - apply IH. eapply played_step; [done|done|constructor].
  - apply IH. eapply played_step; [done|done|constructor].
Qed.



(* ===================================================================== *)
(** * Starting a game *)
(* ===================================================================== *)

Lemma masked_progress (s : GameState) :
  correct_letters s = ∅ →
  get_word_progress s
  = pystr.join " " (replicate (length (pystr.chars (current_word s))) "_").
Proof.
  intros H. unfold get_word_progress. f_equal. rewrite H.
  induction (pystr.chars (current_word s)) as [|c l IH]; [done|].
  cbn [fmap list_fmap length replicate]. f_equal. exact IH.
Qed.

(** X28: [start_new_game] returns [True] exactly when a word could be
    drawn and the log directory prepared.  Whatever it returns, the game
    data of the previous game is gone: the letter sets are empty, the
    counters zero, the flags unset, and the limit of wrong guesses is the
    one it found.  When it returns [True], the word is the one drawn and
    the trace holds one entry, the word fully masked. *)
Theorem start_new_game_spec (g : wordlist.Words) (category : option string)
    (r : nat) (next_game : result Z) (prev : GameState) :
  let ok := (start_new_game g category r next_game prev).1 in
  let s := (start_new_game g category r next_game prev).2 in
  (ok = true ↔
   (∃ word actual, wordlist.get_random_word g category r = Ok (word, actual))
   ∧ ∃ n, next_game = Ok n)
  ∧ guessed_letters s = ∅ ∧ correct_letters s = ∅ ∧ wrong_letters s = ∅
  ∧ wrong_guesses s = 0 ∧ guess_count s = 0
  ∧ game_won s = false ∧ game_lost s = false
  ∧ max_wrong_guesses s = max_wrong_guesses prev
  ∧ (ok = true →
     wordlist.get_random_word g category r
     = Ok (current_word s, current_category s)
     ∧ progress_trace s
       = [pystr.join " "
            (replicate (length (pystr.chars (current_word s))) "_")]).
Proof.
  cbv zeta. unfold start_new_game.
  destruct (wordlist.get_random_word g category r) as [[word actual]|e].
  - destruct next_game as [n|e]; unfold reset_game_state; simpl_state.
    + split_and!; try done.
      * split; [|done]. intros _. split; [by eexists _, _|by eexists].
      * intros _. split; [done|]. cbn [app]. f_equal.
        by rewrite masked_progress.
    + split_and!; try done. split; [done|]. by intros [_ [n ?]].
  - unfold reset_game_state. simpl_state. split_and!; try done.
    split; [done|]. by intros [(? & ? & ?) _].
Qed.

(* ===================================================================== *)
(** * The categories on offer *)
(* ===================================================================== *)

Lemma dict_get_keys {V} (k : string) (d : list (string * V)) :
  k ∈ d.*1 ↔ is_Some (wordlist.dict_get k d).
Proof.
  induction d as [|[k' v] d IH]; simpl.
  - split; [by intros []%elem_of_nil|by intros []].
  - rewrite elem_of_cons, IH. destruct (decide (k = k')) as [->|Hne].
    + split; [by eexists|by left].
    + split; [by intros [?|?]|by right].
Qed.

Lemma load_categories_get (files : string → option (list string))
    (cats : list (string * string)) (d : list (string * list string))
    (k : string) :
  NoDup cats.*1 →
  wordlist.dict_get k
    (foldl (λ acc '(category, filename),
              match files filename with
              | Some lines =>
                  wordlist.dict_set category (wordlist.read_words lines) acc
              | None => acc
              end) d cats)
  = match wordlist.dict_get k cats with
    | Some filename =>
        match files filename with
        | Some lines => Some (wordlist.read_words lines)
        | None => wordlist.dict_get k d
        end
    | None => wordlist.dict_get k d
    end.
Proof.
  revert d. induction cats as [|[category filename] cats IH]; intros d Hnd;
    [done|].
  apply NoDup_cons in Hnd as [Hnotin Hnd].
  cbn [foldl]. rewrite IH by done. cbn [wordlist.dict_get].
  destruct (decide (k = category)) as [->|Hne].
  - assert (wordlist.dict_get category cats = None) as ->.
    { destruct (wordlist.dict_get category cats) eqn:E; [|done].
      destruct Hnotin. apply dict_get_keys. by eexists. }
    destruct (files filename); [|done].
    by rewrite dict_get_set, decide_True.
  - destruct (wordlist.dict_get k cats) as [filename'|].
    + destruct (files filename'); [done|].
      destruct (files filename); [|done].
      by rewrite dict_get_set, decide_False.
    + destruct (files filename); [|done].
      by rewrite dict_get_set, decide_False.
Qed.

(** X29: after [load_words], a category is on offer exactly when its
    file exists in the categories directory, and its word list is the
    normalised content of that file; names outside the four known
    categories are never on offer. *)
Theorem available_categories_spec (words_dir : wordlist.WordsDir)
    (files : string → option (list string)) (category : string) :
  wordlist.categories_dir words_dir = Some files →
  let g := wordlist.load_words words_dir wordlist.no_words in
  wordlist.dict_get category (wordlist._category_words g)
  = (filename ← wordlist.dict_get category wordlist._categories;
     wordlist.read_words <$> files filename)
  ∧ (category ∈ wordlist.get_available_categories g ↔
     ∃ filename lines,
       (category, filename) ∈ wordlist._categories
       ∧ files filename = Some lines).
Proof.
  intros Hdir. cbv zeta.
  assert (wordlist.dict_get category
            (wordlist._category_words
               (wordlist.load_words words_dir wordlist.no_words))
          = (filename ← wordlist.dict_get category wordlist._categories;
             wordlist.read_words <$> files filename)) as Hget.
  { unfold wordlist.load_words. cbn [wordlist._category_words]. rewrite Hdir.
    rewrite load_categories_get
      by (apply (bool_decide_unpack _); vm_compute; exact I).
    destruct (wordlist.dict_get category wordlist._categories)
      as [filename|]; [|done].
    cbn [mbind option_bind]. by destruct (files filename). }
  split; [exact Hget|].
  unfold wordlist.get_available_categories.
  rewrite dict_get_keys, Hget. split.
  - intros [ws Hws].
    destruct (wordlist.dict_get category wordlist._categories)
      as [filename|] eqn:E; [|done].
    cbn [mbind option_bind] in Hws.
    destruct (files filename) as [lines|] eqn:Ef; [|done].
    exists filename, lines. split; [|done].
    revert E. unfold wordlist._categories. cbn [wordlist.dict_get].
    repeat (case_decide; [subst; intros [= <-];
                          repeat (first [by left | right])|]).
    done.
  - intros (filename & lines & Hin & Hf).
    unfold wordlist._categories in Hin. rewrite !elem_of_cons in Hin.
    destruct Hin
      as [[= -> ->]|[[= -> ->]|[[= -> ->]|[[= -> ->]|Hin]]]];
      [..|by apply elem_of_nil in Hin];
      match goal with
      | |- context [wordlist.dict_get ?k wordlist._categories] =>
          let v := eval vm_compute in
                     (wordlist.dict_get k wordlist._categories) in
          change (wordlist.dict_get k wordlist._categories) with v
      end;
      cbn [mbind option_bind]; rewrite Hf; by eexists.
Qed.

Lemma available_categories_spec_witness :
  let g := wordlist.load_words sample_categories wordlist.no_words in
  wordlist.categories_dir sample_categories = Some sample_category_files
  ∧ wordlist.dict_get "science" (wordlist._category_words g)
    = Some ["atom"; "quark"]
  ∧ wordlist.get_available_categories g = ["animals"; "science"].
Proof.
  cbv zeta. split; [reflexivity|].
  destruct (available_categories_spec sample_categories
              sample_category_files "science" eq_refl) as [H _].
  split; [rewrite H; by vm_compute|by vm_compute].
Defined.
